(** * myscrcpy.controller.video_socket_controller

    A shallow embedding of [video_socket_controller.py]: the shared-memory
    frame reader [VideoStream], the camera options [VideoCamera] and the
    video socket controller [VideoSocketController] (handshake, decode loop,
    shared-frame publisher).

    Conventions.
    - A Python [int] is a [Z]; [bytes] is a list of [Byte.byte].
    - A Python [str] is represented by its UTF-8 encoding, a Rocq [string]:
      the encoding is injective and commutes with concatenation, so [==],
      [!=] and [+] on [str] are equality and [+:+] on the encodings.
    - A call that may raise returns an [outcome]; a method that also mutates
      [self] (or the socket, or the shared-memory name space) returns the
      outcome together with the new state, which is kept when it raises.
    - Collaborators that are not part of the module (the PyAV codec context,
      the peer of the socket, the thread that calls [close()]) appear as an
      interface or as the script of what they deliver. *)

From Stdlib Require Import ZArith Lia List String Ascii Bool DecimalString.
From Stdlib Require Strings.Byte.
From stdpp Require Import base option list gmap strings fin_maps.
Import ListNotations.

Local Open Scope Z_scope.

(** ** Python values and exceptions *)

Abbreviation bytes := (list Byte.byte).

(** The exceptions the module raises or lets through.  [CodecError] stands
    for whatever PyAV raises while parsing or decoding. *)
Inductive exn : Type :=
| RuntimeError (msg : string)
| StructError
| ValueError
| TypeError
| UnicodeDecodeError
| AttributeError
| OSError
| FileExistsError
| FileNotFoundError
| CodecError.

Inductive outcome (A : Type) : Type :=
| Ret (a : A)
| Raise (e : exn).
Arguments Ret {A} a.
Arguments Raise {A} e.

Definition is_Ret {A} (o : outcome A) : bool :=
  match o with Ret _ => true | Raise _ => false end.

(** Sequencing of calls that may raise but carry no state. *)
#[export] Instance outcome_ret : MRet outcome := fun A a => Ret a.
#[export] Instance outcome_bind : MBind outcome := fun A B k o =>
  match o with
  | Ret a => k a
  | Raise e => Raise e
  end.

(** ** [struct]: big-endian packing *)

Definition Z_of_byte (b : Byte.byte) : Z := Z.of_N (Byte.to_N b).

Definition byte_of_Z (z : Z) : Byte.byte :=
  match Byte.of_N (Z.to_N z) with
  | Some b => b
  | None => Byte.x00
  end.

(** The [k] low-order base-256 digits of [n], most significant first. *)
Fixpoint be_encode (k : nat) (n : Z) : bytes :=
  match k with
  | O => []
  | S k' => be_encode k' (n / 256) ++ [byte_of_Z (n mod 256)]
  end.

Definition be_decode (bs : bytes) : Z :=
  fold_left (fun acc b => acc * 256 + Z_of_byte b) bs 0.

(** [struct.pack('>I', n)]: [struct.error] unless [0 <= n < 2**32]. *)
Definition pack_I (n : Z) : outcome bytes :=
  if (0 <=? n) && (n <? 2 ^ 32) then Ret (be_encode 4 n) else Raise StructError.

(** [struct.pack('>H', n)]: [struct.error] unless [0 <= n < 2**16]. *)
Definition pack_H (n : Z) : outcome bytes :=
  if (0 <=? n) && (n <? 2 ^ 16) then Ret (be_encode 2 n) else Raise StructError.

(** [struct.pack('>IHH', a, b, c)]; big-endian formats have no padding. *)
Definition pack_IHH (a b c : Z) : outcome bytes :=
  x ← pack_I a; y ← pack_H b; z ← pack_H c; Ret (x ++ y ++ z).

(** [struct.unpack('>IHH', buf)]: the buffer must hold exactly 8 bytes. *)
Definition unpack_IHH (buf : bytes) : outcome (Z * Z * Z) :=
  if (length buf =? 8)%nat
  then Ret (be_decode (firstn 4 buf),
            be_decode (firstn 2 (skipn 4 buf)),
            be_decode (skipn 6 buf))
  else Raise StructError.

(** [struct.unpack('>II', buf)]: exactly 8 bytes as well. *)
Definition unpack_II (buf : bytes) : outcome (Z * Z) :=
  if (length buf =? 8)%nat
  then Ret (be_decode (firstn 4 buf), be_decode (skipn 4 buf))
  else Raise StructError.

(** [struct.unpack('>I', buf)]: exactly 4 bytes. *)
Definition unpack_I (buf : bytes) : outcome Z :=
  if (length buf =? 4)%nat then Ret (be_decode buf) else Raise StructError.

(** ** [bytes.decode()]: strict UTF-8 *)

Definition in_range (lo hi : N) (b : Byte.byte) : bool :=
  ((lo <=? Byte.to_N b) && (Byte.to_N b <=? hi))%N.

Definition cont (b : Byte.byte) : bool := in_range 128 191 b.

(** Well-formed UTF-8 byte sequences (the Unicode standard's table 3-7):
    no overlong form, no surrogate, nothing above U+10FFFF. *)
Fixpoint utf8_valid (bs : bytes) : bool :=
  match bs with
  | [] => true
  | b0 :: r0 =>
    if in_range 0 127 b0 then utf8_valid r0
    else match r0 with
    | [] => false
    | b1 :: r1 =>
      if in_range 194 223 b0 then cont b1 && utf8_valid r1
      else match r1 with
      | [] => false
      | b2 :: r2 =>
        if in_range 224 224 b0 then in_range 160 191 b1 && cont b2 && utf8_valid r2
        else if in_range 237 237 b0 then in_range 128 159 b1 && cont b2 && utf8_valid r2
        else if in_range 225 239 b0 then cont b1 && cont b2 && utf8_valid r2
        else match r2 with
        | [] => false
        | b3 :: r3 =>
          if in_range 240 240 b0
          then in_range 144 191 b1 && cont b2 && cont b3 && utf8_valid r3
          else if in_range 241 243 b0
          then cont b1 && cont b2 && cont b3 && utf8_valid r3
          else if in_range 244 244 b0
          then in_range 128 143 b1 && cont b2 && cont b3 && utf8_valid r3
          else false
        end
      end
    end
  end.

(** [bs.decode()]: the text whose encoding is [bs], or [UnicodeDecodeError]. *)
Definition bytes_decode (bs : bytes) : outcome string :=
  if utf8_valid bs then Ret (string_of_list_byte bs) else Raise UnicodeDecodeError.

(** [f"{n}"] for an [int]. *)
Definition str_of_int (n : Z) : string := NilZero.string_of_int (Z.to_int n).

(** Truth value of an optional [str] ([None] and [''] are false). *)
Definition truthy (o : option string) : bool :=
  match o with
  | Some s => negb (String.eqb s "")
  | None => false
  end.

(** ** [myscrcpy.utils]: [Coordinate] and [Param] *)

(** Modelled from the spec: the two values of [myscrcpy.utils.Param] that
    [Coordinate.rotation] takes, portrait and landscape. *)
Inductive rotation_t : Type := ROTATION_VERTICAL | ROTATION_HORIZONTAL.

Module Coordinate.

(** Modelled from the spec: [myscrcpy.utils.Coordinate] is imported by the
    module and is not part of it.  The spec's GeometryView: a width and a
    height, "long_side = max(width,height), short_side =
    min(width,height), orientation = portrait if height > width else
    landscape". *)
Record t : Type := mk { width : Z; height : Z }.

Definition max_size (c : t) : Z := Z.max (width c) (height c).
Definition min_size (c : t) : Z := Z.min (width c) (height c).
Definition rotation (c : t) : rotation_t :=
  if height c >? width c then ROTATION_VERTICAL else ROTATION_HORIZONTAL.

End Coordinate.

(** ** [numpy] arrays of [uint8] with three channels *)

(** An array that owns its bytes: what [to_ndarray(format='rgb24')] returns,
    of shape [(nd_rows, nd_cols, 3)]. *)
Record ndarray : Type := mkNdarray { nd_rows : Z; nd_cols : Z; tobytes : bytes }.

Definition nbytes (a : ndarray) : Z := nd_rows a * nd_cols a * 3.

(** ** [multiprocessing.shared_memory] *)

(** The name space of the operating system and the segments behind it.  A
    segment outlives its name: [unlink] removes the name only, and a process
    that has attached keeps reading the same bytes. *)
Record shm_world : Type := mkWorld {
  shm_names : gmap string nat;
  shm_segs : gmap nat bytes
}.

(** A [SharedMemory] object: the name it was opened with and the segment
    it maps. *)
Record SharedMemory : Type := mkShm { shm_name : string; shm_seg : nat }.

(** [SharedMemory(name=name, create=True, size=size)] *)
Definition SharedMemory_create (name : string) (size : Z) (w : shm_world)
  : outcome SharedMemory * shm_world :=
  if size <=? 0 then (Raise ValueError, w)
  else match shm_names w !! name with
  | Some _ => (Raise FileExistsError, w)
  | None =>
    let i := fresh (dom (shm_segs w)) in
    (Ret (mkShm name i),
     mkWorld (<[name := i]> (shm_names w))
             (<[i := replicate (Z.to_nat size) Byte.x00]> (shm_segs w)))
  end.

(** [SharedMemory(name=name)] *)
Definition SharedMemory_attach (name : string) (w : shm_world)
  : outcome SharedMemory * shm_world :=
  match shm_names w !! name with
  | Some i => (Ret (mkShm name i), w)
  | None => (Raise FileNotFoundError, w)
  end.

(** [shm.buf] as the bytes it holds now. *)
Definition buf (w : shm_world) (shm : SharedMemory) : outcome bytes :=
  match shm_segs w !! shm_seg shm with
  | Some b => Ret b
  | None => Raise ValueError
  end.

(** [shm.buf[:] = data]: a memoryview cannot change its size. *)
Definition buf_assign (shm : SharedMemory) (data : bytes) (w : shm_world)
  : outcome unit * shm_world :=
  match shm_segs w !! shm_seg shm with
  | Some b =>
    if (length data =? length b)%nat
    then (Ret tt, mkWorld (shm_names w) (<[shm_seg shm := data]> (shm_segs w)))
    else (Raise ValueError, w)
  | None => (Raise ValueError, w)
  end.

(** [shm.buf[:n] = data] *)
Definition buf_assign_prefix (shm : SharedMemory) (n : nat) (data : bytes) (w : shm_world)
  : outcome unit * shm_world :=
  match shm_segs w !! shm_seg shm with
  | Some b =>
    if (length data =? length (firstn n b))%nat
    then (Ret tt, mkWorld (shm_names w) (<[shm_seg shm := data ++ skipn n b]> (shm_segs w)))
    else (Raise ValueError, w)
  | None => (Raise ValueError, w)
  end.

(** [shm.unlink()] *)
Definition unlink (shm : SharedMemory) (w : shm_world) : outcome unit * shm_world :=
  match shm_names w !! shm_name shm with
  | Some _ => (Ret tt, mkWorld (delete (shm_name shm) (shm_names w)) (shm_segs w))
  | None => (Raise FileNotFoundError, w)
  end.

(** The size of the segment [i], if there is one. *)
Definition seg_len (w : shm_world) (i : nat) : option nat := length <$> shm_segs w !! i.

(** From [w] to [w']: no segment has changed its size, no segment but that
    of [shm] has changed its bytes, and no name but that of [shm] has gone
    or come. *)
Definition only_touches (shm : SharedMemory) (w w' : shm_world) : Prop :=
  (forall i, seg_len w' i = seg_len w i)
  /\ (forall i, i <> shm_seg shm -> shm_segs w' !! i = shm_segs w !! i)
  /\ (forall name, name <> shm_name shm -> shm_names w' !! name = shm_names w !! name).

(** A [numpy] array laid over [shm.buf[view_offset:]]: it owns nothing and
    reads whatever the segment holds at the time. *)
Record frame_view : Type := mkView {
  view_seg : nat;
  view_offset : nat;
  view_rows : Z;
  view_cols : Z
}.

(** [np.ndarray((rows, cols, 3), dtype=np.uint8, buffer=shm.buf[off:])] *)
Definition ndarray_over (shm : SharedMemory) (off : nat) (rows cols : Z) (b : bytes)
  : outcome frame_view :=
  if Z.of_nat (length (skipn off b)) <? rows * cols * 3
  then Raise TypeError
  else Ret (mkView (shm_seg shm) off rows cols).

(** The bytes a view shows, row-major. *)
Definition view_bytes (w : shm_world) (v : frame_view) : option bytes :=
  b ← shm_segs w !! view_seg v;
  Some (firstn (Z.to_nat (view_rows v * view_cols v * 3)) (skipn (view_offset v) b)).

(** ** [VideoStream]: the reader of a shared frame *)

Module VideoStream.

Record t : Type := mk {
  _shm : SharedMemory;
  _frame_v : frame_view;
  _frame_h : frame_view;
  frame_id : Z
}.

Definition set_frame_id (n : Z) (self : t) : t :=
  mk (_shm self) (_frame_v self) (_frame_h self) n.

(** The header read of the [coordinate] property: the frame id it stores
    in [self.frame_id], and the [Coordinate(w, h)] it returns. *)
Definition read_header (w : shm_world) (shm : SharedMemory) : outcome (Z * Coordinate.t) :=
  b ← buf w shm;
  '(fid, h, wd) ← unpack_IHH (firstn 8 b);
  Ret (fid, Coordinate.mk wd h).

Definition coordinate (self : t) (w : shm_world) : outcome Coordinate.t * t :=
  match read_header w (_shm self) with
  | Ret (fid, c) => (Ret c, set_frame_id fid self)
  | Raise e => (Raise e, self)
  end.

Definition __init__ (shm : SharedMemory) (w : shm_world) : outcome t :=
  '(_, c) ← read_header w shm;
  b ← buf w shm;
  fv ← ndarray_over shm 8 (Coordinate.max_size c) (Coordinate.min_size c) b;
  fh ← ndarray_over shm 8 (Coordinate.min_size c) (Coordinate.max_size c) b;
  Ret (mk shm fv fh (-1)).

Definition StreamClosed : exn := RuntimeError "VideoStream Closed!".

Definition get_frame (self : t) (w : shm_world)
  : outcome (Coordinate.t * frame_view) * t :=
  match coordinate self w with
  | (Raise e, self) => (Raise e, self)
  | (Ret c, self) =>
    if frame_id self =? 0 then (Raise StreamClosed, self)
    else match Coordinate.rotation c with
    | ROTATION_VERTICAL => (Ret (c, _frame_v self), self)
    | ROTATION_HORIZONTAL => (Ret (c, _frame_h self), self)
    end
  end.

Definition create_by_name (shm_name : string) (w : shm_world) : outcome t :=
  match SharedMemory_attach shm_name w with
  | (Ret shm, w) => __init__ shm w
  | (Raise e, _) => Raise e
  end.

End VideoStream.

(** ** [VideoCamera]: the camera options *)

Module VideoCamera.

Record t : Type := mk {
  camera_id : Z;
  camera_ar : option string;
  camera_size : option string;
  camera_fps : Z
}.

(** [VideoCamera()] with the defaults of its signature. *)
Definition default : t := mk 0 None None 0.

(** [f"{x}"] for an optional [str]. *)
Definition fmt (o : option string) : string :=
  match o with
  | Some s => s
  | None => "None"
  end.

Definition to_args (self : t) : list string :=
  let args := ["camera_id=" +:+ str_of_int (camera_id self)] in
  let args :=
    if truthy (camera_size self)
    then args ++ ["camera_size=" +:+ fmt (camera_size self)]
    else if truthy (camera_ar self)
    then args ++ ["camera_ar=" +:+ fmt (camera_ar self)]
    else args in
  let args :=
    if camera_fps self >? 0
    then args ++ ["camera_fps=" +:+ str_of_int (camera_fps self)]
    else args in
  args.

(** Does the list hold a token of this key? *)
Definition has_key (key : string) (args : list string) : bool :=
  existsb (String.prefix key) args.

End VideoCamera.

(** ** The collaborators of the controller *)

(** [av.codec.CodecContext], as the module uses it: [create], [parse], which
    cuts the bytes of one read into packets, [decode], which turns one packet
    into frames, and [frame.to_ndarray(format='rgb24')].  The context is
    stateful; each call may raise. *)
Class CodecContext (ctx packet frame : Type) : Type := {
  create : string -> ctx;
  parse : ctx -> bytes -> outcome (list packet) * ctx;
  decode : ctx -> packet -> outcome (list frame) * ctx;
  to_ndarray : frame -> outcome ndarray
}.

(** What the socket delivers, in order: a chunk of bytes, or a failure of
    the transport (an [OSError]).  When nothing is left the peer has closed
    the connection: the stream is exhausted. *)
Inductive delivery : Type :=
| Data (bs : bytes)
| Fail.

Record socket : Type := mkSocket { inbox : list delivery; sock_closed : bool }.

(** [conn.recv(bufsize)]: at most [bufsize] bytes of the next chunk; [b'']
    once the peer has closed. *)
Definition recv (bufsize : Z) (c : socket) : outcome bytes * socket :=
  if sock_closed c then (Raise OSError, c)
  else if bufsize <? 0 then (Raise ValueError, c)
  else match inbox c with
  | [] => (Ret [], c)
  | Fail :: rest => (Raise OSError, mkSocket rest false)
  | Data bs :: rest =>
    let k := Z.to_nat bufsize in
    (Ret (firstn k bs),
     mkSocket (if (length bs <=? k)%nat then rest else Data (skipn k bs) :: rest) false)
  end.

(** [conn.close()] *)
Definition sock_close (c : socket) : socket := mkSocket (inbox c) true.

(** What the share thread finds in the fields the other threads write, in
    one round of its loops: the reads are not synchronised, so the first,
    second and third read of a field in the round each have their own
    value. *)
Record seen : Type := mkSeen {
  seen_is_running : bool;
  seen_frame_n_1 : Z;
  seen_frame_n_2 : Z;
  seen_frame_n_3 : Z;
  seen_last_frame_1 : option ndarray;
  seen_last_frame_2 : option ndarray;
  seen_last_frame_3 : option ndarray
}.

(** [x.attr] on an optional object. *)
Definition attr {A B} (o : option A) (f : A -> B) : outcome B :=
  match o with
  | Some a => Ret (f a)
  | None => Raise AttributeError
  end.

(** ** [VideoSocketController] *)

Module VideoSocketController.
Section Controller.

Context {ctx packet frame : Type} `{Codec : CodecContext ctx packet frame}.

Definition SOURCE_DISPLAY : string := "display".
Definition SOURCE_CAMERA : string := "camera".

(** The fields of the object.  [_conn] is the connected socket of the
    [ScrcpySocket] base class.  Its [is_running] flag is written by
    [close()] on the caller's thread: a worker loop reads it from the
    schedule of what it finds at each test. *)
Record t : Type := mk {
  max_size : option Z;
  fps : Z;
  buffer_size : Z;
  video_codec : string;
  video_source : string;
  camera : option VideoCamera.t;
  code_context : ctx;
  video_shm : option SharedMemory;
  frame_n : Z;
  last_frame : option ndarray;
  _conn : socket
}.

Definition set_conn (c : socket) (self : t) : t :=
  mk (max_size self) (fps self) (buffer_size self) (video_codec self)
     (video_source self) (camera self) (code_context self) (video_shm self)
     (frame_n self) (last_frame self) c.

Definition set_code_context (x : ctx) (self : t) : t :=
  mk (max_size self) (fps self) (buffer_size self) (video_codec self)
     (video_source self) (camera self) x (video_shm self)
     (frame_n self) (last_frame self) (_conn self).

Definition set_video_shm (shm : option SharedMemory) (self : t) : t :=
  mk (max_size self) (fps self) (buffer_size self) (video_codec self)
     (video_source self) (camera self) (code_context self) shm
     (frame_n self) (last_frame self) (_conn self).

Definition set_frame_n (n : Z) (self : t) : t :=
  mk (max_size self) (fps self) (buffer_size self) (video_codec self)
     (video_source self) (camera self) (code_context self) (video_shm self)
     n (last_frame self) (_conn self).

Definition set_last_frame (a : option ndarray) (self : t) : t :=
  mk (max_size self) (fps self) (buffer_size self) (video_codec self)
     (video_source self) (camera self) (code_context self) (video_shm self)
     (frame_n self) a (_conn self).

(** [VideoSocketController(max_size, fps, buffer_size, camera, **kwargs)];
    [conn] is the socket the base class has connected. *)
Definition __init__ (max_size : option Z) (fps buffer_size : Z)
    (camera : option VideoCamera.t) (conn : socket) : t :=
  let video_codec := "h264"%string in
  mk max_size fps buffer_size video_codec
     (match camera with Some _ => SOURCE_CAMERA | None => SOURCE_DISPLAY end)
     camera
     (create video_codec)
     None 0 None conn.

(** The [coordinate] property. *)
Definition coordinate (self : t) : outcome Coordinate.t :=
  w ← attr (last_frame self) nd_cols;
  h ← attr (last_frame self) nd_rows;
  Ret (Coordinate.mk w h).

Definition nl : string := String (ascii_of_nat 10) EmptyString.

Definition camera_hint : string :=
  nl +:+ "1.Check VideoSocket max_size" +:+ nl
  +:+ "2.Check camera_ar" +:+ nl
  +:+ "3.In Camera Mode, No ControlSocket SETUP Please" +:+ nl
  +:+ "4.Use scrcpy --list-camera or --list-camera-sizes then choose a RIGHT ar or size or camera_id" +:+ nl
  +:+ "5.Make Sure Your Android Device >= 12" +:+ nl
  +:+ "6.Some Android Device NOT SUPPORTED Camera. Use Scrcpy to see the WRONG MSG.".

(** The two errors of the handshake. *)
Definition NegotiationFailed : exn := RuntimeError camera_hint.
Definition UnsupportedCodec (name : string) : exn :=
  RuntimeError ("Video Codec >" +:+ name +:+ "< not supported!").

(** [self.last_frame = _frame.to_ndarray(format='rgb24')], once the
    conversion has returned [a]. *)
Definition assign_last_frame (a : ndarray) (self : t) : t :=
  set_last_frame (Some a) self.

(** [self.frame_n += 1] *)
Definition incr_frame_n (self : t) : t :=
  set_frame_n (frame_n self + 1) self.

(** [for _frame in frames: ...] *)
Fixpoint for_frames (fs : list frame) (self : t) : outcome unit * t :=
  match fs with
  | [] => (Ret tt, self)
  | f :: fs' =>
    match to_ndarray f with
    | Raise e => (Raise e, self)
    | Ret a => for_frames fs' (incr_frame_n (assign_last_frame a self))
    end
  end.

(** [for packet in packets: for _frame in self.code_context.decode(packet): ...] *)
Fixpoint for_packets (ps : list packet) (self : t) : outcome unit * t :=
  match ps with
  | [] => (Ret tt, self)
  | p :: ps' =>
    match decode (code_context self) p with
    | (Raise e, x) => (Raise e, set_code_context x self)
    | (Ret fs, x) =>
      match for_frames fs (set_code_context x self) with
      | (Raise e, self) => (Raise e, self)
      | (Ret _, self) => for_packets ps' self
      end
    end
  end.

(** The body of the [try]. *)
Definition try_body (self : t) : outcome unit * t :=
  match recv (buffer_size self) (_conn self) with
  | (Raise e, c) => (Raise e, set_conn c self)
  | (Ret data, c) =>
    let self := set_conn c self in
    match parse (code_context self) data with
    | (Raise e, x) => (Raise e, set_code_context x self)
    | (Ret packets, x) => for_packets packets (set_code_context x self)
    end
  end.

(** One round of the loop: [except Exception: continue] drops the error
    and keeps what the round has done. *)
Definition loop_round (self : t) : t := snd (try_body self).

(** [while self.is_running: ...]; [is_running k] is the flag at the test
    number [k].  [None]: still looping when the fuel ran out. *)
Fixpoint while_is_running (fuel : nat) (is_running : nat -> bool) (k : nat) (self : t)
  : option t :=
  match fuel with
  | O => None
  | S fuel' =>
    if is_running k
    then while_is_running fuel' is_running (S k) (loop_round self)
    else Some self
  end.

(** The object after [k] rounds of the loop. *)
Fixpoint rounds (k : nat) (self : t) : t :=
  match k with
  | O => self
  | S k' => rounds k' (loop_round self)
  end.

(** The first test, from the test [k] on and among [fuel] tests, at which
    the flag is found cleared. *)
Fixpoint first_cleared (is_running : nat -> bool) (k fuel : nat) : option nat :=
  match fuel with
  | O => None
  | S fuel' => if is_running k then first_cleared is_running (S k) fuel' else Some k
  end.

(** The frames a round decodes, in decode order: the arrays of the frames
    that convert, up to the first call that raises. *)
Fixpoint converted (fs : list frame) : list ndarray :=
  match fs with
  | [] => []
  | f :: fs' =>
    match to_ndarray f with
    | Ret a => a :: converted fs'
    | Raise _ => []
    end
  end.

Definition all_convert (fs : list frame) : bool :=
  forallb (fun f => is_Ret (to_ndarray f)) fs.

Fixpoint decoded_of_packets (x : ctx) (ps : list packet) : list ndarray :=
  match ps with
  | [] => []
  | p :: ps' =>
    match decode x p with
    | (Ret fs, x') =>
      converted fs ++ (if all_convert fs then decoded_of_packets x' ps' else [])
    | (Raise _, _) => []
    end
  end.

Definition decoded_in_round (self : t) : list ndarray :=
  match recv (buffer_size self) (_conn self) with
  | (Ret data, _) =>
    match parse (code_context self) data with
    | (Ret packets, x) => decoded_of_packets x packets
    | (Raise _, _) => []
    end
  | (Raise _, _) => []
  end.

(** The frames decoded in the first [k] rounds. *)
Fixpoint decoded_in_rounds (k : nat) (self : t) : list ndarray :=
  match k with
  | O => []
  | S k' => decoded_in_round self ++ decoded_in_rounds k' (loop_round self)
  end.

(** The frame store: no frame has been counted before one was stored,
    and the counter is zero exactly as long as there is no frame. *)
Definition counted_has_frame (self : t) : Prop :=
  frame_n self <> 0 -> last_frame self <> None.

Definition frame_store_inv (self : t) : Prop :=
  0 <= frame_n self /\ (frame_n self = 0 <-> last_frame self = None).

(** The handshake, the loop, the close.  [.decode()] returns a [str], never
    [None], so [_video_codec is None or _video_codec == ''] is the second
    test alone.  The width and height of the handshake are only logged. *)
Definition _main_thread (fuel : nat) (is_running : nat -> bool) (self : t)
  : option (outcome unit * t) :=
  match recv 4 (_conn self) with
  | (Raise e, c) => Some (Raise e, set_conn c self)
  | (Ret data, c) =>
    let self := set_conn c self in
    match bytes_decode data with
    | Raise e => Some (Raise e, self)
    | Ret _video_codec =>
      if String.eqb _video_codec "" && String.eqb (video_source self) SOURCE_CAMERA
      then Some (Raise NegotiationFailed, self)
      else if negb (String.eqb _video_codec (video_codec self))
      then Some (Raise (UnsupportedCodec _video_codec), self)
      else
        match recv 8 (_conn self) with
        | (Raise e, c) => Some (Raise e, set_conn c self)
        | (Ret data, c) =>
          let self := set_conn c self in
          match unpack_II data with
          | Raise e => Some (Raise e, self)
          | Ret (_, _) =>
            match while_is_running fuel is_running 0 self with
            | None => None
            | Some self => Some (Ret tt, set_conn (sock_close (_conn self)) self)
            end
          end
        end
    end
  end.

(** [create_shared_frame(size)]; [f_name] is the name made of the clock
    and of [random.randrange]. *)
Definition create_shared_frame (f_name : string) (size : Z) (self : t) (w : shm_world)
  : outcome unit * t * shm_world :=
  match SharedMemory_create f_name size w with
  | (Ret shm, w) => (Ret tt, set_video_shm (Some shm) self, w)
  | (Raise FileExistsError, w) =>
    match SharedMemory_attach f_name w with
    | (Ret shm, w) => (Ret tt, set_video_shm (Some shm) self, w)
    | (Raise e, w) => (Raise e, self, w)
    end
  | (Raise e, w) => (Raise e, self, w)
  end.

(** The write of one round of the share loop. *)
Definition publish (shm : SharedMemory) (o : seen) (w : shm_world)
  : outcome unit * shm_world :=
  match
    rows ← attr (seen_last_frame_1 o) nd_rows;
    cols ← attr (seen_last_frame_2 o) nd_cols;
    header ← pack_IHH (seen_frame_n_2 o) rows cols;
    payload ← attr (seen_last_frame_3 o) tobytes;
    Ret (header ++ payload)
  with
  | Raise e => (Raise e, w)
  | Ret data => buf_assign shm data w
  end.

(** The end of the share thread, after its loop: the zero frame id, then
    [close()], which gives up the mapping of this process only, and
    [unlink()]. *)
Definition teardown (shm : SharedMemory) (w : shm_world) : outcome unit * shm_world :=
  match pack_I 0 with
  | Raise e => (Raise e, w)
  | Ret zero =>
    match buf_assign_prefix shm 4 zero w with
    | (Raise e, w) => (Raise e, w)
    | (Ret _, w) => unlink shm w
    end
  end.

(** [while self.is_running: if n != self.frame_n: ... else: sleep], then
    the teardown; [script k] is what the round [k] reads. *)
Fixpoint share_loop (fuel : nat) (script : nat -> seen) (k : nat) (n : Z)
    (shm : SharedMemory) (w : shm_world) : option (outcome unit * shm_world) :=
  match fuel with
  | O => None
  | S fuel' =>
    let o := script k in
    if seen_is_running o then
      if negb (n =? seen_frame_n_1 o) then
        match publish shm o w with
        | (Raise e, w) => Some (Raise e, w)
        | (Ret _, w) => share_loop fuel' script (S k) (seen_frame_n_3 o) shm w
        end
      else share_loop fuel' script (S k) n shm w
    else Some (teardown shm w)
  end.

(** [while self.frame_n == 0: sleep], then the rest of the thread. *)
Fixpoint _share_thread (fuel : nat) (script : nat -> seen) (k : nat)
    (f_name : string) (self : t) (w : shm_world)
  : option (outcome unit * t * shm_world) :=
  match fuel with
  | O => None
  | S fuel' =>
    let o := script k in
    if seen_frame_n_1 o =? 0
    then _share_thread fuel' script (S k) f_name self w
    else
      match attr (seen_last_frame_1 o) nbytes with
      | Raise e => Some (Raise e, self, w)
      | Ret size =>
        match create_shared_frame f_name (size + 8) self w with
        | (Raise e, self, w) => Some (Raise e, self, w)
        | (Ret _, self, w) =>
          match attr (video_shm self) id with
          | Raise e => Some (Raise e, self, w)
          | Ret shm =>
            match share_loop fuel' script (S k) 0 shm w with
            | None => None
            | Some (r, w) => Some (r, self, w)
            end
          end
        end
      end
  end.

Definition get_frame (self : t) : option ndarray := last_frame self.

(** [f"{x}"] for an optional [int]. *)
Definition fmt (o : option Z) : string :=
  match o with
  | Some n => str_of_int n
  | None => "None"
  end.

Definition to_args (self : t) : list string :=
  let args := [
    "video=true";
    "max_size=" +:+ fmt (max_size self);
    "max_fps=" +:+ str_of_int (fps self);
    "video_codec=" +:+ video_codec self;
    "video_source=" +:+ video_source self
  ]%string in
  match camera self with
  | Some cam => args ++ VideoCamera.to_args cam
  | None => args
  end.

End Controller.
End VideoSocketController.

(** ** A small codec and a session, to run the definitions on *)

Module Demo.

(** One packet per byte read.  A packet [0xff] does not decode, a packet
    [0x02] decodes to two frames, any other packet to one; a frame is one
    pixel whose three channels are the packet byte. *)
Definition pixel (b : Byte.byte) : ndarray := mkNdarray 1 1 [b; b; b].

#[global] Instance codec : CodecContext unit Byte.byte ndarray := {|
  create := fun _ => tt;
  parse := fun x data => (Ret data, x);
  decode := fun x p =>
    if Byte.eqb p Byte.xff then (Raise CodecError, x)
    else if Byte.eqb p Byte.x02 then (Ret [pixel p; pixel p], x)
    else (Ret [pixel p], x);
  to_ndarray := fun f => Ret f
|}.

Definition h264 : bytes := list_byte_of_string "h264".
Definition h265 : bytes := list_byte_of_string "h265".

(** Width 1080 and height 1920, as two big-endian 32-bit integers. *)
Definition size_1080_1920 : bytes := be_encode 4 1080 ++ be_encode 4 1920.

(** A display session on a connection that delivers [inbox]. *)
Definition display (inbox : list delivery) : VideoSocketController.t :=
  VideoSocketController.__init__ None 90 131072 None (mkSocket inbox false).

(** A camera session on a connection that delivers [inbox]. *)
Definition with_camera (inbox : list delivery) : VideoSocketController.t :=
  VideoSocketController.__init__ None 90 131072 (Some VideoCamera.default)
    (mkSocket inbox false).

(** The flag is never cleared. *)
Definition never_closed : nat -> bool := fun _ => true.

(** The flag is found cleared at the test number [k], after [k] rounds. *)
Definition closed_after (k : nat) : nat -> bool := fun i => (i <? k)%nat.

(** A frame of [rows] by [cols] pixels, all bytes [b]. *)
Definition plain (rows cols : Z) (b : Byte.byte) : ndarray :=
  mkNdarray rows cols (replicate (Z.to_nat (rows * cols * 3)) b).

Definition no_world : shm_world := mkWorld ∅ ∅.

(** The segment [0], known under [name], holding [b]. *)
Definition name : string := "vf_0802093000_12345".
Definition shm0 : SharedMemory := mkShm name 0.
Definition holding (b : bytes) : shm_world := mkWorld {[ name := 0%nat ]} {[ 0%nat := b ]}.

Definition six : bytes := [Byte.x01; Byte.x02; Byte.x03; Byte.x04; Byte.x05; Byte.x06].

(** Frame 5, two rows of one pixel; frame 6, one row of two pixels. *)
Definition upright : bytes := be_encode 4 5 ++ be_encode 2 2 ++ be_encode 2 1 ++ six.
Definition lying : bytes := be_encode 4 6 ++ be_encode 2 1 ++ be_encode 2 2 ++ six.

(** A reader that asks for the frame [n] times in a row. *)
Fixpoint poll (n : nat) (self : VideoStream.t) (w : shm_world)
  : list (outcome (Coordinate.t * frame_view)) :=
  match n with
  | O => []
  | S n' =>
    let (r, self') := VideoStream.get_frame self w in
    r :: poll n' self' w
  end.

(** The round in which the share thread finds the flag cleared. *)
Definition stopped : seen := mkSeen false 0 0 0 None None None.

(** A round in which it finds the frame [n], [a], and the flag set. *)
Definition fresh_frame (n : Z) (a : ndarray) : seen :=
  mkSeen true n n n (Some a) (Some a) (Some a).

(** The share loop finds frame 7 in its first round and the flag cleared
    in the next. *)
Definition frame_7_then_stop : nat -> seen := fun k =>
  match k with
  | O => fresh_frame 7 (plain 2 1 Byte.x2a)
  | S _ => stopped
  end.

Definition closed_segment : bytes :=
  be_encode 4 0 ++ be_encode 2 2 ++ be_encode 2 1 ++ replicate 6 Byte.x2a.

End Demo.

(** ** Lemmas on the byte encodings *)

Lemma Z_of_byte_of_Z z : 0 <= z < 256 -> Z_of_byte (byte_of_Z z) = z.
Proof.
  intros Hz. unfold Z_of_byte, byte_of_Z.
  destruct (Byte.of_N (Z.to_N z)) as [b|] eqn:E.
  - apply Byte.to_of_N in E. rewrite E. lia.
  - apply Byte.of_N_None_iff in E. lia.
Qed.

Lemma be_decode_snoc bs b : be_decode (bs ++ [b]) = be_decode bs * 256 + Z_of_byte b.
Proof. unfold be_decode. now rewrite fold_left_app. Qed.

Lemma be_encode_length k n : length (be_encode k n) = k.
Proof.
  revert n. induction k as [|k IH]; intros n; simpl; [reflexivity|].
  rewrite length_app, IH. simpl. lia.
Qed.

Lemma be_decode_encode k n :
  0 <= n < 256 ^ Z.of_nat k -> be_decode (be_encode k n) = n.
Proof.
  revert n. induction k as [|k IH]; intros n Hn.
  - simpl in *. unfold be_decode. simpl. lia.
  - cbn [be_encode]. rewrite be_decode_snoc.
    rewrite Nat2Z.inj_succ, Z.pow_succ_r in Hn by lia.
    rewrite IH, Z_of_byte_of_Z.
    + symmetry. rewrite Z.mul_comm. apply Z.div_mod. lia.
    + apply Z.mod_pos_bound. lia.
    + split; [apply Z.div_pos; lia | apply Z.div_lt_upper_bound; lia].
Qed.

#[global] Arguments be_encode : simpl never.

Lemma pack_I_ok n : 0 <= n < 2 ^ 32 -> pack_I n = Ret (be_encode 4 n).
Proof.
  intros Hn. unfold pack_I.
  destruct (Z.leb_spec 0 n), (Z.ltb_spec n (2 ^ 32)); simpl; try lia; reflexivity.
Qed.

Lemma pack_H_ok n : 0 <= n < 2 ^ 16 -> pack_H n = Ret (be_encode 2 n).
Proof.
  intros Hn. unfold pack_H.
  destruct (Z.leb_spec 0 n), (Z.ltb_spec n (2 ^ 16)); simpl; try lia; reflexivity.
Qed.

Lemma pack_IHH_inv a b c header :
  pack_IHH a b c = Ret header ->
  (0 <= a < 2 ^ 32 /\ 0 <= b < 2 ^ 16 /\ 0 <= c < 2 ^ 16) /\
  header = be_encode 4 a ++ be_encode 2 b ++ be_encode 2 c.
Proof.
  unfold pack_IHH, pack_I, pack_H.
  destruct (Z.leb_spec 0 a), (Z.ltb_spec a (2 ^ 32)); simpl; try discriminate.
  destruct (Z.leb_spec 0 b), (Z.ltb_spec b (2 ^ 16)); simpl; try discriminate.
  destruct (Z.leb_spec 0 c), (Z.ltb_spec c (2 ^ 16)); simpl; try discriminate.
  intros [= <-]. repeat split; assumption.
Qed.

Lemma unpack_IHH_encode a b c rest :
  0 <= a < 2 ^ 32 -> 0 <= b < 2 ^ 16 -> 0 <= c < 2 ^ 16 ->
  unpack_IHH (firstn 8 ((be_encode 4 a ++ be_encode 2 b ++ be_encode 2 c) ++ rest))
  = Ret (a, b, c).
Proof.
  intros Ha Hb Hc.
  pose proof (be_encode_length 4 a) as La.
  pose proof (be_encode_length 2 b) as Lb.
  pose proof (be_encode_length 2 c) as Lc.
  remember (be_encode 4 a) as x eqn:Ex.
  remember (be_encode 2 b) as y eqn:Ey.
  remember (be_encode 2 c) as z eqn:Ez.
  assert (E : firstn 8 ((x ++ y ++ z) ++ rest) = x ++ y ++ z).
  { rewrite firstn_app.
    replace (8 - length (x ++ y ++ z))%nat with 0%nat
      by (rewrite !length_app; lia).
    rewrite firstn_all2 by (rewrite !length_app; lia).
    simpl. apply app_nil_r. }
  rewrite E. unfold unpack_IHH.
  replace (length (x ++ y ++ z)) with 8%nat by (rewrite !length_app; lia).
  simpl Nat.eqb. cbv iota.
  assert (F4 : firstn 4 (x ++ y ++ z) = x).
  { rewrite firstn_app, La. simpl. rewrite app_nil_r.
    rewrite <- La. apply firstn_all. }
  assert (S4 : skipn 4 (x ++ y ++ z) = y ++ z).
  { rewrite <- La. rewrite skipn_app, skipn_all, Nat.sub_diag. reflexivity. }
  assert (F2 : firstn 2 (y ++ z) = y).
  { rewrite firstn_app, Lb. simpl. rewrite app_nil_r.
    rewrite <- Lb. apply firstn_all. }
  assert (S6 : skipn 6 (x ++ y ++ z) = z).
  { change 6%nat with (2 + 4)%nat. rewrite <- skipn_skipn, S4.
    rewrite <- Lb. rewrite skipn_app, skipn_all, Nat.sub_diag. reflexivity. }
  rewrite F4, S4, F2, S6. subst x y z.
  rewrite !be_decode_encode; [reflexivity | simpl; lia ..].
Qed.

(** ** The header survives the trip through the segment *)

(** C2.  Packing a sequence number, a height and a width that fit their
    fields ([>IHH]: 32, 16 and 16 bits, big-endian), as the share thread does
    in front of the pixels, and unpacking the first eight bytes of the
    result, as [VideoStream.coordinate] does, gives the three numbers back;
    for 5, 1920 and 1080 in particular. *)
Theorem header_roundtrip (sequence h w : Z) (payload : bytes) :
  0 <= sequence < 2 ^ 32 -> 0 <= h < 2 ^ 16 -> 0 <= w < 2 ^ 16 ->
  exists header,
    pack_IHH sequence h w = Ret header /\
    unpack_IHH (firstn 8 (header ++ payload)) = Ret (sequence, h, w).
Proof.
  intros Hs Hh Hw.
  exists (be_encode 4 sequence ++ be_encode 2 h ++ be_encode 2 w). split.
  - unfold pack_IHH. rewrite pack_I_ok, !pack_H_ok by assumption. reflexivity.
  - now apply unpack_IHH_encode.
Qed.

Lemma header_roundtrip_witness :
  (0 <= 5 < 2 ^ 32 /\ 0 <= 1920 < 2 ^ 16 /\ 0 <= 1080 < 2 ^ 16) /\
  exists header,
    pack_IHH 5 1920 1080 = Ret header /\
    unpack_IHH (firstn 8 (header ++ tobytes (Demo.pixel Byte.x2a))) = Ret (5, 1920, 1080).
Proof. split; [lia | apply (header_roundtrip 5 1920 1080); lia]. Defined.

(** X5.  After a round of the share loop has written, a reader of the same
    segment finds in the header the counter the round has packed and the
    coordinate of the frame: its columns as width, its rows as height. *)
Lemma publish_read_header shm shm' o w w' a1 a2 :
  VideoSocketController.publish shm o w = (Ret tt, w') ->
  seen_last_frame_1 o = Some a1 ->
  seen_last_frame_2 o = Some a2 ->
  shm_seg shm' = shm_seg shm ->
  VideoStream.read_header w' shm'
  = Ret (seen_frame_n_2 o, Coordinate.mk (nd_cols a2) (nd_rows a1)).
Proof.
  unfold VideoSocketController.publish. intros H E1 E2 Eseg.
  rewrite E1, E2 in H. cbn in H.
  destruct (pack_IHH (seen_frame_n_2 o) (nd_rows a1) (nd_cols a2)) as [hd|] eqn:Ep;
    cbn in H; [|discriminate].
  destruct (seen_last_frame_3 o) as [a3|]; cbn in H; [|discriminate].
  unfold buf_assign in H.
  destruct (shm_segs w !! shm_seg shm) as [b|]; [|discriminate].
  destruct (_ =? _)%nat; [|discriminate].
  injection H as <-.
  apply pack_IHH_inv in Ep as [(Hn & Hr & Hc) ->].
  unfold VideoStream.read_header, buf. cbn. rewrite Eseg, lookup_insert_eq. cbn.
  rewrite unpack_IHH_encode by assumption. reflexivity.
Qed.

(** ** The reader: orientation and the closed stream *)

Lemma get_frame_header (self : VideoStream.t) w b n h wd :
  shm_segs w !! shm_seg (VideoStream._shm self) = Some b ->
  unpack_IHH (firstn 8 b) = Ret (n, h, wd) ->
  VideoStream.get_frame self w =
  let self' := VideoStream.set_frame_id n self in
  if n =? 0 then (Raise VideoStream.StreamClosed, self')
  else if h >? wd
  then (Ret (Coordinate.mk wd h, VideoStream._frame_v self), self')
  else (Ret (Coordinate.mk wd h, VideoStream._frame_h self), self').
Proof.
  intros Hb Hu.
  unfold VideoStream.get_frame, VideoStream.coordinate, VideoStream.read_header, buf.
  rewrite Hb. cbn. rewrite Hu. cbn.
  destruct (n =? 0); [reflexivity|].
  unfold Coordinate.rotation. cbn. destruct (h >? wd); reflexivity.
Qed.

Lemma init_inv shm w0 self0 :
  VideoStream.__init__ shm w0 = Ret self0 ->
  exists b0 n0 h0 w0',
    shm_segs w0 !! shm_seg shm = Some b0 /\
    unpack_IHH (firstn 8 b0) = Ret (n0, h0, w0') /\
    self0 = VideoStream.mk shm
              (mkView (shm_seg shm) 8 (Z.max w0' h0) (Z.min w0' h0))
              (mkView (shm_seg shm) 8 (Z.min w0' h0) (Z.max w0' h0)) (-1).
Proof.
  unfold VideoStream.__init__, VideoStream.read_header, buf.
  destruct (shm_segs w0 !! shm_seg shm) as [b0|]; cbn; [|discriminate].
  destruct (unpack_IHH (firstn 8 b0)) as [[[n0 h0] w0']|] eqn:Eu; cbn; [|discriminate].
  unfold ndarray_over, Coordinate.max_size, Coordinate.min_size. cbn.
  do 2 (destruct (_ <? _); cbn; try discriminate).
  intros [= <-]. exists b0, n0, h0, w0'. repeat split; first [assumption|reflexivity].
Qed.

(** C3.  A reader attached to a segment (header [c0] at that time) asks for
    the frame when the header holds a sequence number other than zero, a
    height [h] and a width [wd].  It gets the coordinate of that header and,
    when [h > wd], the view of long side rows by short side columns,
    otherwise the view of short side rows by long side columns.  Both views
    start at offset 8 of the same segment and show the same bytes; which one
    is returned depends on the header only, not on what the reader returned
    before ([m] is whatever frame id it had stored). *)
Theorem get_frame_orientation shm w0 self0 n0 c0 m w b n h wd :
  VideoStream.read_header w0 shm = Ret (n0, c0) ->
  VideoStream.__init__ shm w0 = Ret self0 ->
  shm_segs w !! shm_seg shm = Some b ->
  unpack_IHH (firstn 8 b) = Ret (n, h, wd) ->
  n <> 0 ->
  let long_side := Coordinate.max_size c0 in
  let short_side := Coordinate.min_size c0 in
  let portrait := mkView (shm_seg shm) 8 long_side short_side in
  let landscape := mkView (shm_seg shm) 8 short_side long_side in
  VideoStream.get_frame (VideoStream.set_frame_id m self0) w
  = (Ret (Coordinate.mk wd h, if h >? wd then portrait else landscape),
     VideoStream.set_frame_id n self0)
  /\ view_bytes w portrait
     = Some (firstn (Z.to_nat (long_side * short_side * 3)) (skipn 8 b))
  /\ view_bytes w landscape = view_bytes w portrait
  /\ (Z.max wd h = long_side -> Z.min wd h = short_side ->
      (if h >? wd then portrait else landscape) = mkView (shm_seg shm) 8 h wd).
Proof.
  intros Hh Hi Hb Hu Hn long_side short_side portrait landscape.
  destruct (init_inv _ _ _ Hi) as (b0 & n0' & h0 & w0' & Hb0 & Hu0 & ->).
  assert (Ec : c0 = Coordinate.mk w0' h0).
  { unfold VideoStream.read_header, buf in Hh. rewrite Hb0 in Hh. cbn in Hh.
    rewrite Hu0 in Hh. cbn in Hh. congruence. }
  split_and!.
  - rewrite (get_frame_header _ w b n h wd) by assumption.
    cbn. apply Z.eqb_neq in Hn. rewrite Hn.
    subst portrait landscape long_side short_side c0.
    unfold Coordinate.max_size, Coordinate.min_size. cbn.
    destruct (h >? wd); reflexivity.
  - unfold view_bytes. cbn. rewrite Hb. reflexivity.
  - unfold view_bytes. cbn. rewrite Hb. cbn.
    replace (short_side * long_side * 3) with (long_side * short_side * 3) by lia.
    reflexivity.
  - intros Hmax Hmin. subst portrait landscape. rewrite <- Hmax, <- Hmin.
    destruct (Z.gtb_spec h wd); f_equal; lia.
Qed.

Lemma get_frame_orientation_witness :
  let self0 := VideoStream.mk Demo.shm0 (mkView 0 8 2 1) (mkView 0 8 1 2) (-1) in
  (VideoStream.read_header (Demo.holding Demo.upright) Demo.shm0
   = Ret (5, Coordinate.mk 1 2) /\
   VideoStream.__init__ Demo.shm0 (Demo.holding Demo.upright) = Ret self0 /\
   shm_segs (Demo.holding Demo.lying) !! shm_seg Demo.shm0 = Some Demo.lying /\
   unpack_IHH (firstn 8 Demo.lying) = Ret (6, 1, 2) /\
   6 <> 0) /\
  VideoStream.get_frame (VideoStream.set_frame_id 5 self0) (Demo.holding Demo.lying)
  = (Ret (Coordinate.mk 2 1, mkView 0 8 1 2), VideoStream.set_frame_id 6 self0)
  /\ view_bytes (Demo.holding Demo.lying) (mkView 0 8 2 1) = Some Demo.six
  /\ view_bytes (Demo.holding Demo.lying) (mkView 0 8 1 2)
     = view_bytes (Demo.holding Demo.lying) (mkView 0 8 2 1)
  /\ (Z.max 2 1 = 2 -> Z.min 2 1 = 1 -> mkView 0 8 1 2 = mkView 0 8 1 2).
Proof.
  intros self0.
  assert (H1 : VideoStream.read_header (Demo.holding Demo.upright) Demo.shm0
               = Ret (5, Coordinate.mk 1 2)) by reflexivity.
  assert (H2 : VideoStream.__init__ Demo.shm0 (Demo.holding Demo.upright) = Ret self0)
    by reflexivity.
  assert (H3 : shm_segs (Demo.holding Demo.lying) !! shm_seg Demo.shm0 = Some Demo.lying)
    by reflexivity.
  assert (H4 : unpack_IHH (firstn 8 Demo.lying) = Ret (6, 1, 2)) by reflexivity.
  assert (H5 : 6 <> 0) by lia.
  split; [repeat split; assumption|].
  exact (get_frame_orientation Demo.shm0 _ self0 5 _ 5 _ _ 6 1 2 H1 H2 H3 H4 H5).
Defined.

Lemma buf_assign_seg_len shm data w r w' i :
  buf_assign shm data w = (r, w') -> seg_len w' i = seg_len w i.
Proof.
  unfold buf_assign, seg_len.
  destruct (shm_segs w !! shm_seg shm) as [b|] eqn:Eb; [|now intros [= _ <-]].
  destruct (length data =? length b)%nat eqn:El; [|now intros [= _ <-]].
  intros [= _ <-]. cbn. apply Nat.eqb_eq in El.
  destruct (decide (shm_seg shm = i)) as [<-|Hne].
  - rewrite lookup_insert_eq, Eb. cbn. now rewrite El.
  - now rewrite lookup_insert_ne.
Qed.

Lemma publish_seg_len shm o w r w' i :
  VideoSocketController.publish shm o w = (r, w') -> seg_len w' i = seg_len w i.
Proof.
  unfold VideoSocketController.publish.
  destruct (_ ≫= _) as [data|e]; [apply buf_assign_seg_len | now intros [= _ <-]].
Qed.

(** A share loop that ends without an error has ended in the teardown, on
    a world whose segments have the sizes they had. *)
Lemma share_loop_Ret fuel script shm : forall k n w w',
  VideoSocketController.share_loop fuel script k n shm w = Some (Ret tt, w') ->
  exists w1, (forall i, seg_len w1 i = seg_len w i) /\
             VideoSocketController.teardown shm w1 = (Ret tt, w').
Proof.
  induction fuel as [|fuel IH]; intros k n w w'; cbn; [discriminate|].
  destruct (seen_is_running (script k)).
  - destruct (negb _).
    + destruct (VideoSocketController.publish shm (script k) w) as [[[]|e] w1] eqn:Ep;
        [|discriminate].
      intros H. apply IH in H as (w2 & Hlen & Ht). exists w2. split; [|exact Ht].
      intros i. rewrite Hlen. eapply publish_seg_len, Ep.
    + apply IH.
  - intros [= H]. exists w. split; [reflexivity | exact H].
Qed.

Lemma teardown_Ret shm w w' :
  VideoSocketController.teardown shm w = (Ret tt, w') ->
  exists b, shm_segs w !! shm_seg shm = Some b /\
            (4 <= length b)%nat /\
            shm_segs w' = <[shm_seg shm := be_encode 4 0 ++ skipn 4 b]> (shm_segs w).
Proof.
  unfold VideoSocketController.teardown. rewrite pack_I_ok by lia.
  unfold buf_assign_prefix.
  destruct (shm_segs w !! shm_seg shm) as [b|]; [|discriminate].
  rewrite be_encode_length, length_firstn.
  destruct (4 =? _)%nat eqn:El; [|discriminate].
  apply Nat.eqb_eq in El. unfold unlink. cbn.
  destruct (shm_names w !! shm_name shm); [|discriminate].
  intros [= <-]. exists b. cbn. repeat split. lia.
Qed.

Lemma poll_closed count : forall (self : VideoStream.t) w b h wd,
  shm_segs w !! shm_seg (VideoStream._shm self) = Some b ->
  unpack_IHH (firstn 8 b) = Ret (0, h, wd) ->
  Demo.poll count self w = replicate count (Raise VideoStream.StreamClosed).
Proof.
  induction count as [|count IH]; intros self w b h wd Hb Hu; [reflexivity|].
  cbn [Demo.poll replicate].
  rewrite (get_frame_header self w b 0 h wd Hb Hu). cbn.
  f_equal. apply (IH _ w b h wd); assumption.
Qed.

(** C4.  The share loop has ended in its teardown, on a segment a reader
    [self0] was attached to.  The first four bytes of the segment now unpack
    ([>I]) to 0, and however often the reader asks for the frame afterwards,
    each call raises the closed-stream error and returns no frame. *)
Theorem closed_stream_after_teardown fuel script k n shm w w' shm_r self0 :
  VideoStream.__init__ shm_r w = Ret self0 ->
  shm_seg shm_r = shm_seg shm ->
  VideoSocketController.share_loop fuel script k n shm w = Some (Ret tt, w') ->
  (exists b, buf w' shm_r = Ret b /\ unpack_I (firstn 4 b) = Ret 0) /\
  forall count m,
    Demo.poll count (VideoStream.set_frame_id m self0) w'
    = replicate count (Raise VideoStream.StreamClosed).
Proof.
  intros Hi Hseg Hloop.
  destruct (init_inv _ _ _ Hi) as (b0 & n0 & h0 & w0 & Hb0 & Hu0 & ->).
  apply share_loop_Ret in Hloop as (w1 & Hlen & Ht).
  apply teardown_Ret in Ht as (b1 & Hb1 & Hl1 & Hsegs).
  assert (L0 : (length b0 >= 8)%nat).
  { unfold unpack_IHH in Hu0. destruct (_ =? 8)%nat eqn:E; [|discriminate].
    apply Nat.eqb_eq in E. rewrite length_firstn in E. lia. }
  assert (L1 : length b1 = length b0).
  { specialize (Hlen (shm_seg shm)). unfold seg_len in Hlen.
    rewrite Hb1, <- Hseg, Hb0 in Hlen. cbn in Hlen. congruence. }
  set (b' := be_encode 4 0 ++ skipn 4 b1).
  assert (Hb' : shm_segs w' !! shm_seg shm_r = Some b').
  { rewrite Hsegs, Hseg. apply lookup_insert_eq. }
  assert (F4 : firstn 4 b' = be_encode 4 0).
  { subst b'. rewrite firstn_app, be_encode_length, Nat.sub_diag, firstn_O, app_nil_r.
    apply firstn_all2. rewrite be_encode_length. lia. }
  split.
  - exists b'. unfold buf. rewrite Hb'. split; [reflexivity|].
    rewrite F4. reflexivity.
  - intros count m.
    assert (L' : (length b' >= 8)%nat).
    { subst b'. rewrite length_app, be_encode_length, length_skipn. lia. }
    assert (Hu : exists h wd, unpack_IHH (firstn 8 b') = Ret (0, h, wd)).
    { unfold unpack_IHH. rewrite length_firstn.
      replace (Nat.min 8 (length b')) with 8%nat by lia. simpl Nat.eqb. cbv iota.
      rewrite firstn_firstn. change (Nat.min 4 8) with 4%nat.
      rewrite F4. do 2 eexists. reflexivity. }
    destruct Hu as (h & wd & Hu).
    apply (poll_closed count _ w' b' h wd); [exact Hb' | exact Hu].
Qed.

Lemma closed_stream_after_teardown_witness :
  let self0 := VideoStream.mk Demo.shm0 (mkView 0 8 2 1) (mkView 0 8 1 2) (-1) in
  let w' := mkWorld ∅ {[ 0%nat := Demo.closed_segment ]} in
  (VideoStream.__init__ Demo.shm0 (Demo.holding Demo.upright) = Ret self0 /\
   shm_seg Demo.shm0 = shm_seg Demo.shm0 /\
   VideoSocketController.share_loop 2 Demo.frame_7_then_stop 0 0 Demo.shm0
     (Demo.holding Demo.upright) = Some (Ret tt, w')) /\
  (exists b, buf w' Demo.shm0 = Ret b /\ unpack_I (firstn 4 b) = Ret 0) /\
  forall count m,
    Demo.poll count (VideoStream.set_frame_id m self0) w'
    = replicate count (Raise VideoStream.StreamClosed).
Proof.
  intros self0 w'.
  assert (H1 : VideoStream.__init__ Demo.shm0 (Demo.holding Demo.upright) = Ret self0)
    by reflexivity.
  assert (H2 : shm_seg Demo.shm0 = shm_seg Demo.shm0) by reflexivity.
  assert (H3 : VideoSocketController.share_loop 2 Demo.frame_7_then_stop 0 0 Demo.shm0
                 (Demo.holding Demo.upright) = Some (Ret tt, w'))
    by (vm_compute; reflexivity).
  split; [repeat split; assumption|].
  exact (closed_stream_after_teardown 2 Demo.frame_7_then_stop 0 0 Demo.shm0 _ w'
           Demo.shm0 self0 H1 H2 H3).
Defined.

(** ** The decode loop *)

Section DecodeLoop.

Context {ctx packet frame : Type} `{Codec : CodecContext ctx packet frame}.

Import VideoSocketController.

Implicit Types (self : @t ctx) (fs : list frame) (ps : list packet).

(** What is true of the object before a round and is kept by the three
    writes of the loop is true after the round. *)
Section Preserved.

Variable P : @t ctx -> Prop.
Hypothesis P_conn : forall c self, P self -> P (set_conn c self).
Hypothesis P_code_context : forall x self, P self -> P (set_code_context x self).
Hypothesis P_store : forall a self, P self -> P (incr_frame_n (assign_last_frame a self)).

Lemma for_frames_preserves fs : forall self, P self -> P (snd (for_frames fs self)).
Proof.
  induction fs as [|f fs IH]; intros self HP; cbn; [exact HP|].
  destruct (to_ndarray f); cbn; [apply IH, P_store, HP | exact HP].
Qed.

Lemma for_packets_preserves ps : forall self, P self -> P (snd (for_packets ps self)).
Proof.
  induction ps as [|p ps IH]; intros self HP; cbn; [exact HP|].
  destruct (decode (code_context self) p) as [[fs|e] x]; cbn.
  - pose proof (for_frames_preserves fs (set_code_context x self)
                  (P_code_context x self HP)) as H.
    destruct (for_frames fs (set_code_context x self)) as [[[]|e] s]; cbn in *.
    + apply IH, H.
    + exact H.
  - apply P_code_context, HP.
Qed.

Lemma loop_round_preserves self : P self -> P (loop_round self).
Proof.
  intros HP. unfold loop_round, try_body.
  destruct (recv (buffer_size self) (_conn self)) as [[data|e] c]; cbn.
  - destruct (parse (code_context self) data) as [[packets|e] x]; cbn.
    + apply for_packets_preserves, P_code_context, P_conn, HP.
    + apply P_code_context, P_conn, HP.
  - apply P_conn, HP.
Qed.

Lemma rounds_preserves k : forall self, P self -> P (rounds k self).
Proof.
  induction k as [|k IH]; intros self HP; cbn; [exact HP|].
  apply IH, loop_round_preserves, HP.
Qed.

End Preserved.

(** The loop as rounds: it returns when the flag is found cleared. *)
Lemma while_is_running_rounds is_running fuel : forall k self,
  while_is_running fuel is_running k self
  = match first_cleared is_running k fuel with
    | Some j => Some (rounds (j - k) self)
    | None => None
    end.
Proof.
  induction fuel as [|fuel IH]; intros k self; cbn; [reflexivity|].
  destruct (is_running k) eqn:Ek.
  - rewrite IH. destruct (first_cleared is_running (S k) fuel) as [j|] eqn:Ej;
      [|reflexivity].
    assert (Hj : (S k <= j)%nat).
    { clear -Ej. revert k Ej. induction fuel as [|fuel IH]; intros k; cbn; [discriminate|].
      destruct (is_running (S k)).
      - intros H. apply IH in H. lia.
      - intros [= <-]. lia. }
    replace (j - k)%nat with (S (j - S k)) by lia. reflexivity.
  - rewrite Nat.sub_diag. reflexivity.
Qed.

Lemma first_cleared_never is_running :
  (forall k, is_running k = true) ->
  forall fuel k, first_cleared is_running k fuel = None.
Proof.
  intros H fuel. induction fuel as [|fuel IH]; intros k; cbn; [reflexivity|].
  rewrite H. apply IH.
Qed.

(** Counting. *)
Lemma for_frames_count fs : forall self,
  frame_n (snd (for_frames fs self)) = frame_n self + Z.of_nat (length (converted fs))
  /\ is_Ret (fst (for_frames fs self)) = all_convert fs
  /\ code_context (snd (for_frames fs self)) = code_context self.
Proof.
  induction fs as [|f fs IH]; intros self; cbn.
  - repeat split; lia.
  - destruct (to_ndarray f) as [a|e]; cbn.
    + destruct (IH (incr_frame_n (assign_last_frame a self))) as (H1 & H2 & H3).
      rewrite H1, H2, H3. cbn. repeat split; lia.
    + repeat split; lia.
Qed.

Lemma for_packets_count ps : forall self,
  frame_n (snd (for_packets ps self))
  = frame_n self + Z.of_nat (length (decoded_of_packets (code_context self) ps)).
Proof.
  induction ps as [|p ps IH]; intros self; cbn; [lia|].
  destruct (decode (code_context self) p) as [[fs|e] x]; cbn; [|lia].
  destruct (for_frames_count fs (set_code_context x self)) as (H1 & H2 & H3).
  destruct (for_frames fs (set_code_context x self)) as [[[]|e] s]; cbn in *.
  - rewrite <- H2, IH, H1, H3, length_app. cbn. lia.
  - rewrite <- H2, H1, length_app. cbn. lia.
Qed.

Lemma loop_round_count self :
  frame_n (loop_round self)
  = frame_n self + Z.of_nat (length (decoded_in_round self)).
Proof.
  unfold loop_round, try_body, decoded_in_round.
  destruct (recv (buffer_size self) (_conn self)) as [[data|e] c]; cbn; [|lia].
  destruct (parse (code_context self) data) as [[packets|e] x]; cbn; [|lia].
  rewrite for_packets_count. reflexivity.
Qed.

Lemma rounds_count k : forall self,
  frame_n (rounds k self)
  = frame_n self + Z.of_nat (length (decoded_in_rounds k self)).
Proof.
  induction k as [|k IH]; intros self; cbn; [lia|].
  rewrite IH, loop_round_count, length_app. lia.
Qed.

Lemma rounds_add j : forall k self, rounds (k + j) self = rounds j (rounds k self).
Proof. intros k. induction k as [|k IH]; intros self; cbn; [reflexivity | apply IH]. Qed.

End DecodeLoop.

Section FrameStore.

Context {ctx packet frame : Type} `{Codec : CodecContext ctx packet frame}.

Import VideoSocketController.

Implicit Types (self : @t ctx) (fs : list frame) (ps : list packet).

Lemma decoded_in_rounds_add j : forall k self,
  decoded_in_rounds (k + j) self
  = decoded_in_rounds k self ++ decoded_in_rounds j (rounds k self).
Proof.
  intros k. induction k as [|k IH]; intros self; cbn; [reflexivity|].
  rewrite IH, app_assoc. reflexivity.
Qed.

Lemma first_cleared_found is_running fuel : forall k j,
  first_cleared is_running k fuel = Some j -> (k <= j)%nat /\ is_running j = false.
Proof.
  induction fuel as [|fuel IH]; intros k j; cbn; [discriminate|].
  destruct (is_running k) eqn:Ek.
  - intros H. apply IH in H. split; [lia | apply H].
  - intros [= <-]. split; [lia | exact Ek].
Qed.

(** C1.  The frame counter is 0 in a new controller; storing a decoded
    frame adds exactly one to it, frame by frame also when one read
    decodes to several frames; after any number of rounds of the decode
    loop it has grown by the number of frames decoded in them, so it is N
    after N frames from a new controller; later rounds add the number of
    frames they decode, after those of the earlier rounds, and never take
    anything back.  A run of the loop itself: it returns exactly when the
    flag is found cleared at one of its tests; with [i] the first such test
    it has run the [i] rounds before it and no other, and leaves the counter
    at its start value plus the number of frames decoded in those rounds, so
    at that number from a new controller; as long as the flag has not been
    found cleared it has not returned. *)
Theorem frame_n_counts_decoded_frames
    (max_size : option Z) (fps buffer_size : Z) (camera : option VideoCamera.t)
    (conn : socket) (self : t) (a : ndarray) fs (k j fuel : nat)
    (is_running : nat -> bool) :
  let new := __init__ max_size fps buffer_size camera conn in
  frame_n new = 0
  /\ frame_n (incr_frame_n (assign_last_frame a self)) = frame_n self + 1
  /\ frame_n (snd (for_frames fs self))
     = frame_n self + Z.of_nat (length (converted fs))
  /\ frame_n (rounds k self)
     = frame_n self + Z.of_nat (length (decoded_in_rounds k self))
  /\ frame_n (rounds k new) = Z.of_nat (length (decoded_in_rounds k new))
  /\ frame_n (rounds (k + j) self)
     = frame_n (rounds k self)
       + Z.of_nat (length (decoded_in_rounds j (rounds k self)))
  /\ frame_n (rounds k self) <= frame_n (rounds (k + j) self)
  /\ decoded_in_rounds (k + j) self
     = decoded_in_rounds k self ++ decoded_in_rounds j (rounds k self)
  /\ match first_cleared is_running 0 fuel with
     | Some i =>
       is_running i = false
       /\ while_is_running fuel is_running 0 self = Some (rounds i self)
       /\ frame_n (rounds i self)
          = frame_n self + Z.of_nat (length (decoded_in_rounds i self))
       /\ while_is_running fuel is_running 0 new = Some (rounds i new)
       /\ frame_n (rounds i new) = Z.of_nat (length (decoded_in_rounds i new))
     | None =>
       while_is_running fuel is_running 0 self = None
       /\ while_is_running fuel is_running 0 new = None
     end.
Proof.
  intros new.
  assert (Hadd : frame_n (rounds (k + j) self)
                 = frame_n (rounds k self)
                   + Z.of_nat (length (decoded_in_rounds j (rounds k self)))).
  { rewrite rounds_add. apply rounds_count. }
  repeat split.
  - apply for_frames_count.
  - apply rounds_count.
  - rewrite rounds_count. reflexivity.
  - exact Hadd.
  - lia.
  - apply decoded_in_rounds_add.
  - rewrite !while_is_running_rounds.
    destruct (first_cleared is_running 0 fuel) as [i|] eqn:Ei; [|split; reflexivity].
    rewrite Nat.sub_0_r. split_and!; try reflexivity.
    + now apply first_cleared_found in Ei.
    + apply rounds_count.
    + rewrite rounds_count. reflexivity.
Qed.

Lemma frame_store_inv_store a self :
  frame_store_inv self -> frame_store_inv (incr_frame_n (assign_last_frame a self)).
Proof.
  intros [Hn _]. unfold frame_store_inv. cbn. split; [lia|].
  split; [lia | discriminate].
Qed.

Lemma frame_store_inv_round self : frame_store_inv self -> frame_store_inv (loop_round self).
Proof.
  apply (loop_round_preserves frame_store_inv); auto using frame_store_inv_store.
Qed.

(** C7.  "The counter is zero if and only if there is no frame" holds of
    a new controller and, once it holds, it holds after each decoded frame
    has been stored, after each round of the loop whether or not the round
    raised, after any number of rounds and in what the loop returns.
    Between the two writes of a frame, the frame first and the counter
    second, a counter that is not zero still has its frame. *)
Theorem frame_store_invariant
    (max_size : option Z) (fps buffer_size : Z) (camera : option VideoCamera.t)
    (conn : socket) (self : t) (a : ndarray) (k fuel : nat)
    (is_running : nat -> bool) :
  frame_store_inv self ->
  frame_store_inv (__init__ max_size fps buffer_size camera conn)
  /\ counted_has_frame (assign_last_frame a self)
  /\ frame_store_inv (incr_frame_n (assign_last_frame a self))
  /\ frame_store_inv (loop_round self)
  /\ frame_store_inv (rounds k self)
  /\ match while_is_running fuel is_running 0 self with
     | Some self' => frame_store_inv self'
     | None => True
     end.
Proof.
  intros Hinv.
  assert (Hk : forall i, frame_store_inv (rounds i self)).
  { intros i. apply (rounds_preserves frame_store_inv);
      auto using frame_store_inv_store. }
  split_and!.
  - unfold frame_store_inv. cbn. split; [lia | tauto].
  - intros _. discriminate.
  - apply frame_store_inv_store, Hinv.
  - apply frame_store_inv_round, Hinv.
  - apply Hk.
  - rewrite while_is_running_rounds.
    destruct (first_cleared is_running 0 fuel); [apply Hk | exact I].
Qed.

End FrameStore.

(** ** The handshake *)

Lemma recv_Raise n c e c' : recv n c = (Raise e, c') -> e = OSError \/ e = ValueError.
Proof.
  unfold recv. destruct (sock_closed c); [intros [= <- _]; now left|].
  destruct (n <? 0); [intros [= <- _]; now right|].
  destruct (inbox c) as [|[bs|] rest]; [discriminate | discriminate |].
  intros [= <- _]. now left.
Qed.

Lemma bytes_decode_Ret data name :
  bytes_decode data = Ret name -> name = string_of_list_byte data.
Proof. unfold bytes_decode. destruct (utf8_valid data); [congruence | discriminate]. Qed.

Lemma bytes_decode_Raise data e : bytes_decode data = Raise e -> e = UnicodeDecodeError.
Proof. unfold bytes_decode. destruct (utf8_valid data); [discriminate | congruence]. Qed.

Lemma unpack_II_Raise data e : unpack_II data = Raise e -> e = StructError.
Proof. unfold unpack_II. destruct (_ =? _)%nat; [discriminate | congruence]. Qed.

Lemma UnsupportedCodec_not_NegotiationFailed name :
  VideoSocketController.UnsupportedCodec name <> VideoSocketController.NegotiationFailed.
Proof. unfold VideoSocketController.UnsupportedCodec. cbn. discriminate. Qed.

Section Handshake.

Context {ctx packet frame : Type} `{Codec : CodecContext ctx packet frame}.

Import VideoSocketController.

Implicit Types (self : @t ctx).

(** A name that is not empty, or a source that is not the camera, and a
    name that is not the codec of the controller: the codec is refused,
    whatever the fuel, so before the first round of the loop. *)
Lemma main_thread_other_codec fuel is_running self data c name :
  recv 4 (_conn self) = (Ret data, c) ->
  bytes_decode data = Ret name ->
  name <> ""%string \/ video_source self <> SOURCE_CAMERA ->
  name <> video_codec self ->
  _main_thread fuel is_running self
  = Some (Raise (UnsupportedCodec name), set_conn c self).
Proof.
  intros Hr Hd Hne Hc. unfold _main_thread. rewrite Hr, Hd. cbn.
  replace (String.eqb name "" && String.eqb (video_source self) SOURCE_CAMERA)
    with false.
  - apply String.eqb_neq in Hc. rewrite Hc. reflexivity.
  - symmetry. apply andb_false_iff.
    destruct Hne as [H|H]; [left | right]; now apply String.eqb_neq.
Qed.

(** The handshake has gone through: what remains is the loop, then the
    close of the socket. *)
Lemma main_thread_streaming fuel is_running self data1 c1 data2 c2 :
  recv 4 (_conn self) = (Ret data1, c1) ->
  bytes_decode data1 = Ret (video_codec self) ->
  video_codec self <> ""%string ->
  recv 8 c1 = (Ret data2, c2) ->
  length data2 = 8%nat ->
  _main_thread fuel is_running self
  = match while_is_running fuel is_running 0 (set_conn c2 (set_conn c1 self)) with
    | None => None
    | Some self' => Some (Ret tt, set_conn (sock_close (_conn self')) self')
    end.
Proof.
  intros Hr1 Hd Hne Hr2 Hl. unfold _main_thread. rewrite Hr1, Hd. cbn.
  apply String.eqb_neq in Hne. rewrite Hne, String.eqb_refl. cbn.
  rewrite Hr2. cbn. unfold unpack_II. rewrite Hl. cbn. reflexivity.
Qed.

(** What the thread can end with. *)
Lemma main_thread_ends fuel is_running self r self' :
  _main_thread fuel is_running self = Some (r, self') ->
  match r with
  | Ret _ =>
    sock_closed (_conn self') = true /\
    exists k, first_cleared is_running 0 fuel = Some k /\ is_running k = false
  | Raise e =>
    frame_n self' = frame_n self /\ last_frame self' = last_frame self /\
    code_context self' = code_context self /\
    (e = NegotiationFailed -> video_source self = SOURCE_CAMERA)
  end.
Proof.
  unfold _main_thread.
  destruct (recv 4 (_conn self)) as [[data1|e1] c1] eqn:Hr1; cbn.
  2:{ intros [= <- <-]. cbn. split_and!; try reflexivity.
      apply recv_Raise in Hr1 as [-> | ->]; discriminate. }
  destruct (bytes_decode data1) as [name|e2] eqn:Hd.
  2:{ intros [= <- <-]. cbn. split_and!; try reflexivity.
      apply bytes_decode_Raise in Hd as ->. discriminate. }
  destruct (String.eqb name "" && String.eqb (video_source self) SOURCE_CAMERA) eqn:Ecam.
  { intros [= <- <-]. cbn. split_and!; try reflexivity.
    intros _. apply andb_true_iff in Ecam as [_ H]. now apply String.eqb_eq in H. }
  destruct (negb (String.eqb name (video_codec self))).
  { intros [= <- <-]. cbn. split_and!; try reflexivity.
    intros H. now apply UnsupportedCodec_not_NegotiationFailed in H. }
  destruct (recv 8 c1) as [[data2|e3] c2] eqn:Hr2; cbn.
  2:{ intros [= <- <-]. cbn. split_and!; try reflexivity.
      apply recv_Raise in Hr2 as [-> | ->]; discriminate. }
  destruct (unpack_II data2) as [[wd h]|e4] eqn:Hu.
  2:{ intros [= <- <-]. cbn. split_and!; try reflexivity.
      apply unpack_II_Raise in Hu as ->. discriminate. }
  rewrite while_is_running_rounds.
  destruct (first_cleared is_running 0 fuel) as [k|] eqn:Ek; [|discriminate].
  intros [= <- <-]. cbn. split; [reflexivity|].
  exists k. split; [reflexivity|]. now apply first_cleared_found in Ek.
Qed.

(** C6.  The four bytes received decode to a name other than the codec
    of the controller: the thread raises the unsupported-codec error with
    that name, whatever fuel the loop is given, so before its first round;
    no frame is counted or stored and the codec context is untouched. *)
Theorem handshake_refuses_other_codec fuel is_running self data c name :
  recv 4 (_conn self) = (Ret data, c) ->
  length data = 4%nat ->
  bytes_decode data = Ret name ->
  name <> video_codec self ->
  exists self',
    _main_thread fuel is_running self = Some (Raise (UnsupportedCodec name), self')
    /\ UnsupportedCodec name <> NegotiationFailed
    /\ frame_n self' = frame_n self
    /\ last_frame self' = last_frame self
    /\ code_context self' = code_context self.
Proof.
  intros Hr Hl Hd Hc. exists (set_conn c self). split_and!; try reflexivity.
  - apply (main_thread_other_codec fuel is_running self data c name Hr Hd); [|exact Hc].
    left. apply bytes_decode_Ret in Hd as ->.
    destruct data as [|b data]; [discriminate | cbn; discriminate].
  - apply UnsupportedCodec_not_NegotiationFailed.
Qed.

(** C10.  A display session that receives an empty name does not raise
    the error with the camera hints: the empty name reaches the
    comparison with the codec and the thread raises the unsupported-codec
    error for the name [''].  Whenever the thread raises the error with
    the hints, the source is the camera. *)
Theorem empty_name_on_display fuel is_running self c :
  video_source self = SOURCE_DISPLAY ->
  video_codec self = "h264"%string ->
  recv 4 (_conn self) = (Ret [], c) ->
  _main_thread fuel is_running self
  = Some (Raise (UnsupportedCodec ""), set_conn c self)
  /\ UnsupportedCodec "" <> NegotiationFailed
  /\ forall fuel' is_running' self0 self',
       _main_thread fuel' is_running' self0 = Some (Raise NegotiationFailed, self') ->
       video_source self0 = SOURCE_CAMERA.
Proof.
  intros Hs Hc Hr. split_and!.
  - apply (main_thread_other_codec fuel is_running self [] c ""%string Hr).
    + reflexivity.
    + right. rewrite Hs. discriminate.
    + rewrite Hc. discriminate.
  - apply UnsupportedCodec_not_NegotiationFailed.
  - intros fuel' is_running' self0 self' H.
    apply main_thread_ends in H. cbn in H. now apply H.
Qed.

(** C5, as the code has it.  The loop returns exactly when the flag is
    found cleared at one of its tests, with the object the rounds before
    that test have made, whatever the stream delivers.  A round on an
    exhausted stream, the peer having closed, reads [b''] and leaves the
    socket as it was: open, and exhausted.  The thread closes the socket
    only after the loop has returned, and as long as the flag has not been
    found cleared it has not returned. *)
Theorem decode_loop_ends_on_cleared_flag fuel is_running self :
  while_is_running fuel is_running 0 self
  = match first_cleared is_running 0 fuel with
    | Some k => Some (rounds k self)
    | None => None
    end
  /\ recv (buffer_size self) (mkSocket [] false)
     = (if buffer_size self <? 0 then Raise ValueError else Ret [], mkSocket [] false)
  /\ _conn (loop_round (set_conn (mkSocket [] false) self)) = mkSocket [] false
  /\ match _main_thread fuel is_running self with
     | Some (Ret _, self') =>
       sock_closed (_conn self') = true /\
       exists k, first_cleared is_running 0 fuel = Some k /\ is_running k = false
     | Some (Raise _, _) => True
     | None => first_cleared is_running 0 fuel = None
     end.
Proof.
  split_and!.
  - rewrite while_is_running_rounds.
    destruct (first_cleared is_running 0 fuel) as [k|]; [|reflexivity].
    now rewrite Nat.sub_0_r.
  - unfold recv. cbn. destruct (buffer_size self <? 0); reflexivity.
  - unfold loop_round, try_body. cbn.
    unfold recv. cbn. destruct (buffer_size self <? 0); cbn; [reflexivity|].
    destruct (parse (code_context self) []) as [[packets|e] x]; cbn; [|reflexivity].
    apply (for_packets_preserves (fun s => _conn s = mkSocket [] false)); auto.
  - destruct (_main_thread fuel is_running self) as [[[[]|e] self']|] eqn:E.
    + apply main_thread_ends in E. exact E.
    + exact I.
    + unfold _main_thread in E.
      destruct (recv 4 (_conn self)) as [[data1|e1] c1]; cbn in E; [|discriminate].
      destruct (bytes_decode data1) as [name|e2]; [|discriminate].
      destruct (_ && _); [discriminate|].
      destruct (negb _); [discriminate|].
      destruct (recv 8 c1) as [[data2|e3] c2]; cbn in E; [|discriminate].
      destruct (unpack_II data2) as [[wd h]|e4]; [|discriminate].
      rewrite while_is_running_rounds in E.
      destruct (first_cleared is_running 0 fuel); [discriminate | reflexivity].
Qed.

End Handshake.

(** ** The session on the small codec *)

(** One read that decodes to three frames before a packet fails, a failed
    read, one more frame, then the exhausted stream: four frames counted,
    the last one stored. *)
Example demo_rounds :
  let self := VideoSocketController.rounds 5
    (Demo.display [Data [Byte.x01; Byte.x02; Byte.xff; Byte.x03]; Fail; Data [Byte.x05]]) in
  VideoSocketController.frame_n self = 4
  /\ VideoSocketController.last_frame self = Some (Demo.pixel Byte.x05)
  /\ VideoSocketController._conn self = mkSocket [] false.
Proof. vm_compute. repeat split. Qed.

(** The handshake has gone through and the peer has closed: the flag stays
    set, and with no amount of fuel does the thread come to its end, where
    it would close the socket. *)
Lemma exhausted_stream_never_ends :
  ~ exists fuel r,
      VideoSocketController._main_thread fuel Demo.never_closed
        (Demo.display [Data Demo.h264; Data Demo.size_1080_1920]) = Some r.
Proof.
  intros (fuel & r & H).
  rewrite (main_thread_streaming fuel Demo.never_closed _
             Demo.h264 (mkSocket [Data Demo.size_1080_1920] false)
             Demo.size_1080_1920 (mkSocket [] false)) in H;
    [| reflexivity | reflexivity | discriminate | reflexivity | reflexivity].
  rewrite while_is_running_rounds, first_cleared_never in H by reflexivity.
  discriminate.
Qed.

Lemma frame_store_invariant_witness :
  let self := Demo.display [Data [Byte.x01; Byte.x02]] in
  VideoSocketController.frame_store_inv self /\
  (VideoSocketController.frame_store_inv
     (VideoSocketController.__init__ None 90 131072 None (mkSocket [] false))
   /\ VideoSocketController.counted_has_frame
        (VideoSocketController.assign_last_frame (Demo.pixel Byte.x2a) self)
   /\ VideoSocketController.frame_store_inv
        (VideoSocketController.incr_frame_n
           (VideoSocketController.assign_last_frame (Demo.pixel Byte.x2a) self))
   /\ VideoSocketController.frame_store_inv (VideoSocketController.loop_round self)
   /\ VideoSocketController.frame_store_inv (VideoSocketController.rounds 1 self)
   /\ match VideoSocketController.while_is_running 2 (Demo.closed_after 1) 0 self with
      | Some self' => VideoSocketController.frame_store_inv self'
      | None => True
      end).
Proof.
  intros self.
  assert (H : VideoSocketController.frame_store_inv self).
  { unfold VideoSocketController.frame_store_inv. simpl.
    split; [lia | split; reflexivity]. }
  split; [exact H|].
  exact (frame_store_invariant None 90 131072 None (mkSocket [] false) self
           (Demo.pixel Byte.x2a) 1 2 (Demo.closed_after 1) H).
Defined.

Lemma handshake_refuses_other_codec_witness :
  let self := Demo.display [Data Demo.h265] in
  (recv 4 (VideoSocketController._conn self) = (Ret Demo.h265, mkSocket [] false) /\
   length Demo.h265 = 4%nat /\
   bytes_decode Demo.h265 = Ret "h265"%string /\
   "h265"%string <> VideoSocketController.video_codec self) /\
  exists self',
    VideoSocketController._main_thread 0 Demo.never_closed self
    = Some (Raise (VideoSocketController.UnsupportedCodec "h265"), self')
    /\ VideoSocketController.UnsupportedCodec "h265" <> VideoSocketController.NegotiationFailed
    /\ VideoSocketController.frame_n self' = VideoSocketController.frame_n self
    /\ VideoSocketController.last_frame self' = VideoSocketController.last_frame self
    /\ VideoSocketController.code_context self' = VideoSocketController.code_context self.
Proof.
  intros self.
  assert (H1 : recv 4 (VideoSocketController._conn self)
               = (Ret Demo.h265, mkSocket [] false)) by reflexivity.
  assert (H2 : length Demo.h265 = 4%nat) by reflexivity.
  assert (H3 : bytes_decode Demo.h265 = Ret "h265"%string) by reflexivity.
  assert (H4 : "h265"%string <> VideoSocketController.video_codec self)
    by (simpl; discriminate).
  split; [repeat split; assumption|].
  exact (handshake_refuses_other_codec 0 Demo.never_closed self Demo.h265
           (mkSocket [] false) "h265"%string H1 H2 H3 H4).
Defined.

Lemma empty_name_on_display_witness :
  let self := Demo.display [] in
  (VideoSocketController.video_source self = VideoSocketController.SOURCE_DISPLAY /\
   VideoSocketController.video_codec self = "h264"%string /\
   recv 4 (VideoSocketController._conn self) = (Ret [], mkSocket [] false)) /\
  VideoSocketController._main_thread 3 Demo.never_closed self
  = Some (Raise (VideoSocketController.UnsupportedCodec ""),
          VideoSocketController.set_conn (mkSocket [] false) self)
  /\ VideoSocketController.UnsupportedCodec "" <> VideoSocketController.NegotiationFailed
  /\ forall fuel' is_running' (self0 self' : VideoSocketController.t),
       VideoSocketController._main_thread fuel' is_running' self0
       = Some (Raise VideoSocketController.NegotiationFailed, self') ->
       VideoSocketController.video_source self0 = VideoSocketController.SOURCE_CAMERA.
Proof.
  intros self.
  assert (H1 : VideoSocketController.video_source self
               = VideoSocketController.SOURCE_DISPLAY) by reflexivity.
  assert (H2 : VideoSocketController.video_codec self = "h264"%string) by reflexivity.
  assert (H3 : recv 4 (VideoSocketController._conn self) = (Ret [], mkSocket [] false))
    by reflexivity.
  split; [repeat split; assumption|].
  exact (empty_name_on_display 3 Demo.never_closed self (mkSocket [] false) H1 H2 H3).
Defined.

(** A camera session that receives an empty name raises the error with
    the hints. *)
Example empty_name_on_camera :
  VideoSocketController._main_thread 3 Demo.never_closed (Demo.with_camera [])
  = Some (Raise VideoSocketController.NegotiationFailed,
          VideoSocketController.set_conn (mkSocket [] false) (Demo.with_camera [])).
Proof. reflexivity. Qed.

(** ** The camera arguments *)

Lemma truthy_Some s : s <> ""%string -> truthy (Some s) = true.
Proof. intros H. cbn. apply String.eqb_neq in H. now rewrite H. Qed.

(** In no configuration does the list hold both keys. *)
Lemma camera_size_xor_camera_ar (self : VideoCamera.t) :
  VideoCamera.has_key "camera_size=" (VideoCamera.to_args self)
  && VideoCamera.has_key "camera_ar=" (VideoCamera.to_args self) = false.
Proof.
  unfold VideoCamera.to_args.
  destruct (truthy (VideoCamera.camera_size self)),
           (truthy (VideoCamera.camera_ar self)),
           (VideoCamera.camera_fps self >? 0);
    apply andb_false_iff; first [left; reflexivity | right; reflexivity].
Qed.

(** C8.  With a camera size that is set, that is a string other than [''],
    the list holds the token [camera_size=<size>] and no token of the key
    [camera_ar], whatever the aspect ratio is; and no configuration at all
    emits both keys. *)
Theorem camera_size_takes_priority (self : VideoCamera.t) (size : string) :
  VideoCamera.camera_size self = Some size ->
  size <> ""%string ->
  In ("camera_size=" +:+ size) (VideoCamera.to_args self)
  /\ VideoCamera.has_key "camera_ar=" (VideoCamera.to_args self) = false
  /\ forall any : VideoCamera.t,
       VideoCamera.has_key "camera_size=" (VideoCamera.to_args any)
       && VideoCamera.has_key "camera_ar=" (VideoCamera.to_args any) = false.
Proof.
  intros Hs Hne. split_and!.
  - unfold VideoCamera.to_args. rewrite Hs, (truthy_Some size Hne).
    destruct (VideoCamera.camera_fps self >? 0); cbn; auto.
  - unfold VideoCamera.to_args. rewrite Hs, (truthy_Some size Hne).
    destruct (VideoCamera.camera_fps self >? 0); reflexivity.
  - apply camera_size_xor_camera_ar.
Qed.

Lemma camera_size_takes_priority_witness :
  let self := VideoCamera.mk 0 (Some "16:9") (Some "1280x720") 0 in
  (VideoCamera.camera_size self = Some "1280x720"%string /\ "1280x720"%string <> ""%string) /\
  In "camera_size=1280x720"%string (VideoCamera.to_args self)
  /\ VideoCamera.has_key "camera_ar=" (VideoCamera.to_args self) = false
  /\ forall any : VideoCamera.t,
       VideoCamera.has_key "camera_size=" (VideoCamera.to_args any)
       && VideoCamera.has_key "camera_ar=" (VideoCamera.to_args any) = false.
Proof.
  intros self.
  assert (H1 : VideoCamera.camera_size self = Some "1280x720"%string) by reflexivity.
  assert (H2 : "1280x720"%string <> ""%string) by discriminate.
  split; [split; assumption|].
  exact (camera_size_takes_priority self "1280x720" H1 H2).
Defined.

Example camera_both_set :
  VideoCamera.to_args (VideoCamera.mk 0 (Some "16:9") (Some "1280x720") 30)
  = ["camera_id=0"; "camera_size=1280x720"; "camera_fps=30"]%string.
Proof. reflexivity. Qed.

Example camera_ar_only :
  VideoCamera.to_args (VideoCamera.mk 1 (Some "16:9") None 0)
  = ["camera_id=1"; "camera_ar=16:9"]%string.
Proof. reflexivity. Qed.

(** ** The shared frame: creation *)

Section SharedFrame.

Context {ctx : Type}.

Import VideoSocketController.

Implicit Types (self : @t ctx).

(** The name is free: a segment of [size] zero bytes is made. *)
Lemma create_shared_frame_fresh f_name size self w :
  0 < size ->
  shm_names w !! f_name = None ->
  let i := fresh (dom (shm_segs w)) in
  create_shared_frame f_name size self w
  = (Ret tt, set_video_shm (Some (mkShm f_name i)) self,
     mkWorld (<[f_name := i]> (shm_names w))
             (<[i := replicate (Z.to_nat size) Byte.x00]> (shm_segs w))).
Proof.
  intros Hs Hn i. unfold create_shared_frame, SharedMemory_create.
  destruct (Z.leb_spec size 0); [lia|]. rewrite Hn. reflexivity.
Qed.

Lemma create_shared_frame_taken f_name size self w i :
  0 < size ->
  shm_names w !! f_name = Some i ->
  create_shared_frame f_name size self w
  = (Ret tt, set_video_shm (Some (mkShm f_name i)) self, w).
Proof.
  intros Hs Hn. unfold create_shared_frame, SharedMemory_create, SharedMemory_attach.
  destruct (Z.leb_spec size 0); [lia|]. rewrite Hn. cbn. rewrite Hn. reflexivity.
Qed.

(** C9.  The name made for the segment is already taken by the segment
    [i]: [create_shared_frame] returns without raising, [video_shm] is
    the existing segment [i] under that name, and the name space and the
    bytes of the segments are as they were. *)
Theorem create_shared_frame_attaches_to_existing f_name size self w i :
  0 < size ->
  shm_names w !! f_name = Some i ->
  exists self',
    create_shared_frame f_name size self w = (Ret tt, self', w)
    /\ video_shm self' = Some (mkShm f_name i)
    /\ SharedMemory_create f_name size w = (Raise FileExistsError, w).
Proof.
  intros Hs Hn. exists (set_video_shm (Some (mkShm f_name i)) self). split_and!.
  - now apply create_shared_frame_taken.
  - reflexivity.
  - unfold SharedMemory_create. destruct (Z.leb_spec size 0); [lia|].
    rewrite Hn. reflexivity.
Qed.

(** X24.  Two sessions that make the same name: the first creates the segment,
    the second attaches to it, and neither raises. *)
Lemma two_sessions_one_name f_name size1 size2 self1 self2 w :
  0 < size1 -> 0 < size2 ->
  shm_names w !! f_name = None ->
  exists shm w1,
    create_shared_frame f_name size1 self1 w
    = (Ret tt, set_video_shm (Some shm) self1, w1)
    /\ create_shared_frame f_name size2 self2 w1
       = (Ret tt, set_video_shm (Some shm) self2, w1).
Proof.
  intros H1 H2 Hn. eexists _, _. split.
  - now apply create_shared_frame_fresh.
  - apply create_shared_frame_taken; [exact H2|]. cbn. apply lookup_insert_eq.
Qed.

End SharedFrame.

Lemma create_shared_frame_attaches_to_existing_witness :
  let self := Demo.display [] in
  let w := Demo.holding Demo.upright in
  (0 < 14 /\ shm_names w !! Demo.name = Some 0%nat) /\
  exists self',
    VideoSocketController.create_shared_frame Demo.name 14 self w = (Ret tt, self', w)
    /\ VideoSocketController.video_shm self' = Some (mkShm Demo.name 0)
    /\ SharedMemory_create Demo.name 14 w = (Raise FileExistsError, w).
Proof.
  intros self w.
  assert (H1 : 0 < 14) by lia.
  assert (H2 : shm_names w !! Demo.name = Some 0%nat) by reflexivity.
  split; [split; assumption|].
  exact (create_shared_frame_attaches_to_existing Demo.name 14 self w 0%nat H1 H2).
Defined.

(** ** Further runs *)

(** The first frame of a session, between its two writes: the frame is
    there and the counter is still 0; the next statement makes it 1. *)
Example between_the_writes :
  let self := VideoSocketController.assign_last_frame (Demo.pixel Byte.x2a) (Demo.display []) in
  VideoSocketController.last_frame self = Some (Demo.pixel Byte.x2a)
  /\ VideoSocketController.frame_n self = 0
  /\ VideoSocketController.frame_n (VideoSocketController.incr_frame_n self) = 1.
Proof. repeat split. Qed.

(** An empty size is no size: the aspect ratio is emitted. *)
Example camera_size_empty :
  VideoCamera.to_args (VideoCamera.mk 0 (Some "16:9") (Some "") 0)
  = ["camera_id=0"; "camera_ar=16:9"]%string.
Proof. reflexivity. Qed.

(** A reader attached to a segment that holds no frame yet has views of
    no rows. *)
Example attached_before_first_frame :
  VideoStream.__init__ Demo.shm0 (Demo.holding (replicate 14 Byte.x00))
  = Ret (VideoStream.mk Demo.shm0 (mkView 0 8 0 0) (mkView 0 8 0 0) (-1)).
Proof. reflexivity. Qed.

(** The share thread from its start: it waits for the first frame, makes
    the segment, writes frame 7, finds the flag cleared, and leaves the zero
    frame id in a segment that has lost its name. *)
Example share_thread_run :
  let script := fun k : nat =>
    match k with
    | O => mkSeen true 0 0 0 None None None
    | 1%nat | 2%nat => Demo.fresh_frame 7 (Demo.plain 2 1 Byte.x2a)
    | _ => Demo.stopped
    end in
  VideoSocketController._share_thread 4 script 0 Demo.name (Demo.display []) Demo.no_world
  = Some (Ret tt,
          VideoSocketController.set_video_shm (Some Demo.shm0) (Demo.display []),
          mkWorld ∅ {[ 0%nat := Demo.closed_segment ]}).
Proof. vm_compute. reflexivity. Qed.

(** X4.  After the teardown the name is gone: a new reader cannot attach. *)
Lemma create_by_name_after_teardown shm w w' :
  VideoSocketController.teardown shm w = (Ret tt, w') ->
  VideoStream.create_by_name (shm_name shm) w' = Raise FileNotFoundError.
Proof.
  unfold VideoSocketController.teardown. rewrite pack_I_ok by lia.
  destruct (buf_assign_prefix shm 4 (be_encode 4 0) w) as [[[]|e] w1] eqn:E1;
    [|intros [= ? ?]; discriminate].
  unfold unlink. destruct (shm_names w1 !! shm_name shm); [|discriminate].
  intros [= <-]. unfold VideoStream.create_by_name, SharedMemory_attach. cbn.
  rewrite lookup_delete_eq. reflexivity.
Qed.

(** ** More on the reader *)

Lemma unpack_IHH_is_Ret (b : bytes) :
  is_Ret (unpack_IHH (firstn 8 b)) = (8 <=? length b)%nat.
Proof.
  unfold unpack_IHH. rewrite length_firstn.
  destruct (Nat.leb_spec 8 (length b)).
  - replace (Nat.min 8 (length b)) with 8%nat by lia. reflexivity.
  - destruct (Nat.eqb_spec (Nat.min 8 (length b)) 8); [lia | reflexivity].
Qed.

Lemma unpack_IHH_Ret_length (b : bytes) x :
  unpack_IHH (firstn 8 b) = Ret x -> (8 <= length b)%nat.
Proof.
  intros H. pose proof (unpack_IHH_is_Ret b) as E. rewrite H in E.
  change (is_Ret (Ret x)) with true in E. symmetry in E. now apply Nat.leb_le in E.
Qed.

Lemma unpack_IHH_Raise_length (b : bytes) e :
  unpack_IHH (firstn 8 b) = Raise e -> (length b < 8)%nat.
Proof.
  intros H. pose proof (unpack_IHH_is_Ret b) as E. rewrite H in E.
  change (is_Ret (Raise e)) with false in E. symmetry in E. now apply Nat.leb_gt in E.
Qed.

Lemma unpack_IHH_Raise (b : bytes) e : unpack_IHH b = Raise e -> e = StructError.
Proof. unfold unpack_IHH. destruct (_ =? _)%nat; [discriminate | congruence]. Qed.

Lemma init_unfold shm w (b : bytes) :
  shm_segs w !! shm_seg shm = Some b ->
  VideoStream.__init__ shm w
  = match unpack_IHH (firstn 8 b) with
    | Raise _ => Raise StructError
    | Ret (_, h, wd) =>
      if Z.of_nat (length b) - 8 <? h * wd * 3 then Raise TypeError
      else Ret (VideoStream.mk shm
                  (mkView (shm_seg shm) 8 (Z.max wd h) (Z.min wd h))
                  (mkView (shm_seg shm) 8 (Z.min wd h) (Z.max wd h)) (-1))
    end.
Proof.
  intros Hb.
  unfold VideoStream.__init__, VideoStream.read_header, buf. rewrite Hb. cbn.
  destruct (unpack_IHH (firstn 8 b)) as [[[n h] wd]|e] eqn:Eu; cbn.
  - unfold ndarray_over, Coordinate.max_size, Coordinate.min_size. cbn.
    rewrite length_skipn.
    assert (L : (8 <= length b)%nat) by (eapply unpack_IHH_Ret_length, Eu).
    replace (Z.of_nat (length b - 8)) with (Z.of_nat (length b) - 8) by lia.
    replace (Z.max wd h * Z.min wd h * 3) with (h * wd * 3) by lia.
    replace (Z.min wd h * Z.max wd h * 3) with (h * wd * 3) by lia.
    destruct (Z.of_nat (length b) - 8 <? h * wd * 3); reflexivity.
  - apply unpack_IHH_Raise in Eu. now subst e.
Qed.

(** X1.  Attaching reads the header and lays the two views over the payload:
    it raises [struct.error] exactly when the segment has fewer than eight
    bytes, [TypeError] when the payload is shorter than the [h * w * 3]
    bytes of the header, and otherwise gives the reader whose views have
    the long and the short side of the header. *)
Theorem init_checks_sizes shm w (b : bytes) :
  shm_segs w !! shm_seg shm = Some b ->
  VideoStream.__init__ shm w
  = match unpack_IHH (firstn 8 b) with
    | Raise _ => Raise StructError
    | Ret (_, h, wd) =>
      if Z.of_nat (length b) - 8 <? h * wd * 3 then Raise TypeError
      else Ret (VideoStream.mk shm
                  (mkView (shm_seg shm) 8 (Z.max wd h) (Z.min wd h))
                  (mkView (shm_seg shm) 8 (Z.min wd h) (Z.max wd h)) (-1))
    end
  /\ is_Ret (unpack_IHH (firstn 8 b)) = (8 <=? length b)%nat.
Proof.
  intros Hb. split; [now apply init_unfold | apply unpack_IHH_is_Ret].
Qed.

Lemma init_checks_sizes_witness :
  shm_segs (Demo.holding (firstn 13 Demo.upright)) !! shm_seg Demo.shm0
  = Some (firstn 13 Demo.upright) /\
  (VideoStream.__init__ Demo.shm0 (Demo.holding (firstn 13 Demo.upright))
   = match unpack_IHH (firstn 8 (firstn 13 Demo.upright)) with
     | Raise _ => Raise StructError
     | Ret (_, h, wd) =>
       if Z.of_nat (length (firstn 13 Demo.upright)) - 8 <? h * wd * 3
       then Raise TypeError
       else Ret (VideoStream.mk Demo.shm0
                   (mkView (shm_seg Demo.shm0) 8 (Z.max wd h) (Z.min wd h))
                   (mkView (shm_seg Demo.shm0) 8 (Z.min wd h) (Z.max wd h)) (-1))
     end
   /\ is_Ret (unpack_IHH (firstn 8 (firstn 13 Demo.upright)))
      = (8 <=? length (firstn 13 Demo.upright))%nat).
Proof.
  assert (H : shm_segs (Demo.holding (firstn 13 Demo.upright)) !! shm_seg Demo.shm0
              = Some (firstn 13 Demo.upright)) by reflexivity.
  split; [exact H|].
  exact (init_checks_sizes Demo.shm0 _ _ H).
Defined.

(** One byte short of the two pixels of its header: the attach raises
    [TypeError]. *)
Example init_payload_too_short :
  VideoStream.__init__ Demo.shm0 (Demo.holding (firstn 13 Demo.upright)) = Raise TypeError.
Proof. reflexivity. Qed.

(** X2.  A reader on a segment of at least eight bytes: asking for the frame
    either returns one of its two views, and then the frame id it has read
    is not zero, or raises the closed-stream error, and then the first four
    bytes of the segment are zero.  No other error comes out of it. *)
Theorem get_frame_raises_only_closed (self : VideoStream.t) w (b : bytes) :
  shm_segs w !! shm_seg (VideoStream._shm self) = Some b ->
  (8 <= length b)%nat ->
  match VideoStream.get_frame self w with
  | (Ret (c, v), self') =>
    (v = VideoStream._frame_v self \/ v = VideoStream._frame_h self)
    /\ VideoStream.frame_id self' = be_decode (firstn 4 b)
    /\ VideoStream.frame_id self' <> 0
  | (Raise e, self') =>
    e = VideoStream.StreamClosed
    /\ be_decode (firstn 4 b) = 0
    /\ VideoStream.frame_id self' = 0
  end.
Proof.
  intros Hb Hl.
  destruct (unpack_IHH (firstn 8 b)) as [[[n h] wd]|e] eqn:Eu.
  - assert (Hn : n = be_decode (firstn 4 b)).
    { unfold unpack_IHH in Eu. destruct (_ =? _)%nat; [|discriminate].
      injection Eu as <- _ _. rewrite firstn_firstn. reflexivity. }
    rewrite (get_frame_header self w b n h wd Hb Eu). cbn.
    destruct (Z.eqb_spec n 0) as [E0|E0].
    + cbn. repeat split; congruence.
    + destruct (h >? wd); cbn; (split; [auto | split; congruence]).
  - apply unpack_IHH_Raise_length in Eu. lia.
Qed.

Lemma get_frame_raises_only_closed_witness :
  let self := VideoStream.mk Demo.shm0 (mkView 0 8 2 1) (mkView 0 8 1 2) (-1) in
  (shm_segs (Demo.holding Demo.closed_segment) !! shm_seg (VideoStream._shm self)
   = Some Demo.closed_segment /\
   (8 <= length Demo.closed_segment)%nat) /\
  match VideoStream.get_frame self (Demo.holding Demo.closed_segment) with
  | (Ret (c, v), self') =>
    (v = VideoStream._frame_v self \/ v = VideoStream._frame_h self)
    /\ VideoStream.frame_id self' = be_decode (firstn 4 Demo.closed_segment)
    /\ VideoStream.frame_id self' <> 0
  | (Raise e, self') =>
    e = VideoStream.StreamClosed
    /\ be_decode (firstn 4 Demo.closed_segment) = 0
    /\ VideoStream.frame_id self' = 0
  end.
Proof.
  intros self.
  assert (H1 : shm_segs (Demo.holding Demo.closed_segment) !! shm_seg (VideoStream._shm self)
               = Some Demo.closed_segment) by reflexivity.
  assert (H2 : (8 <= length Demo.closed_segment)%nat) by (vm_compute; lia).
  split; [split; assumption|].
  exact (get_frame_raises_only_closed self _ _ H1 H2).
Defined.

Lemma be_decode_zeros k : be_decode (replicate k Byte.x00) = 0.
Proof.
  unfold be_decode. induction k as [|k IH]; [reflexivity|].
  cbn [replicate fold_left]. exact IH.
Qed.

Lemma unpack_IHH_zeros k :
  (8 <= k)%nat -> unpack_IHH (firstn 8 (replicate k Byte.x00)) = Ret (0, 0, 0).
Proof.
  intros Hk. rewrite take_replicate. replace (Nat.min 8 k) with 8%nat by lia.
  reflexivity.
Qed.

(** X3.  A reader that attaches by name to a segment the controller has just
    made, before any frame is written, attaches without error, and each
    call for a frame raises the closed-stream error: the zero bytes of a new
    segment are the frame id of a closed stream. *)
Theorem reader_before_first_frame {ctx : Type} f_name size
    (self : @VideoSocketController.t ctx) w :
  8 <= size ->
  shm_names w !! f_name = None ->
  exists self' w' r,
    VideoSocketController.create_shared_frame f_name size self w = (Ret tt, self', w')
    /\ VideoStream.create_by_name f_name w' = Ret r
    /\ forall count,
         Demo.poll count r w' = replicate count (Raise VideoStream.StreamClosed).
Proof.
  intros Hs Hn.
  set (i := fresh (dom (shm_segs w))).
  set (b := replicate (Z.to_nat size) Byte.x00).
  assert (Hu : unpack_IHH (firstn 8 b) = Ret (0, 0, 0)) by (apply unpack_IHH_zeros; lia).
  eexists _, _, (VideoStream.mk (mkShm f_name i) (mkView i 8 0 0) (mkView i 8 0 0) (-1)).
  split_and!.
  - apply create_shared_frame_fresh; [lia | exact Hn].
  - unfold VideoStream.create_by_name, SharedMemory_attach. cbn.
    rewrite lookup_insert_eq.
    rewrite (init_unfold _ _ b) by (cbn; apply lookup_insert_eq).
    rewrite Hu. cbv iota beta. change (0 * 0 * 3) with 0.
    destruct (Z.ltb_spec (Z.of_nat (length b) - 8) 0); [|reflexivity].
    subst b. rewrite length_replicate in *. lia.
  - intros count. apply (poll_closed count _ _ b 0 0); [|exact Hu].
    cbn. apply lookup_insert_eq.
Qed.

Lemma reader_before_first_frame_witness :
  (8 <= 14 /\ shm_names Demo.no_world !! Demo.name = None) /\
  exists self' w' r,
    VideoSocketController.create_shared_frame Demo.name 14 (Demo.display []) Demo.no_world
    = (Ret tt, self', w')
    /\ VideoStream.create_by_name Demo.name w' = Ret r
    /\ forall count,
         Demo.poll count r w' = replicate count (Raise VideoStream.StreamClosed).
Proof.
  assert (H1 : 8 <= 14) by lia.
  assert (H2 : shm_names Demo.no_world !! Demo.name = None) by reflexivity.
  split; [split; assumption|].
  exact (reader_before_first_frame Demo.name 14 (Demo.display []) Demo.no_world H1 H2).
Defined.

Lemma create_by_name_after_teardown_witness :
  let w' := mkWorld ∅ {[ 0%nat := be_encode 4 0 ++ skipn 4 Demo.upright ]} in
  VideoSocketController.teardown Demo.shm0 (Demo.holding Demo.upright) = (Ret tt, w') /\
  VideoStream.create_by_name (shm_name Demo.shm0) w' = Raise FileNotFoundError.
Proof.
  intros w'.
  assert (H : VideoSocketController.teardown Demo.shm0 (Demo.holding Demo.upright)
              = (Ret tt, w')) by (vm_compute; reflexivity).
  split; [exact H|].
  exact (create_by_name_after_teardown Demo.shm0 _ w' H).
Defined.

Lemma publish_read_header_witness :
  let o := Demo.fresh_frame 7 (Demo.plain 2 1 Byte.x2a) in
  let w' := Demo.holding
    (be_encode 4 7 ++ be_encode 2 2 ++ be_encode 2 1 ++ replicate 6 Byte.x2a) in
  (VideoSocketController.publish Demo.shm0 o (Demo.holding Demo.upright) = (Ret tt, w') /\
   seen_last_frame_1 o = Some (Demo.plain 2 1 Byte.x2a) /\
   seen_last_frame_2 o = Some (Demo.plain 2 1 Byte.x2a) /\
   shm_seg Demo.shm0 = shm_seg Demo.shm0) /\
  VideoStream.read_header w' Demo.shm0 = Ret (7, Coordinate.mk 1 2).
Proof.
  intros o w'.
  assert (H1 : VideoSocketController.publish Demo.shm0 o (Demo.holding Demo.upright)
               = (Ret tt, w')) by (vm_compute; reflexivity).
  assert (H2 : seen_last_frame_1 o = Some (Demo.plain 2 1 Byte.x2a)) by reflexivity.
  assert (H3 : seen_last_frame_2 o = Some (Demo.plain 2 1 Byte.x2a)) by reflexivity.
  assert (H4 : shm_seg Demo.shm0 = shm_seg Demo.shm0) by reflexivity.
  split; [repeat split; assumption|].
  exact (publish_read_header Demo.shm0 Demo.shm0 o _ w' _ _ H1 H2 H3 H4).
Defined.

(** ** More on the share thread *)

Lemma pack_IHH_ok a b c :
  0 <= a < 2 ^ 32 -> 0 <= b < 2 ^ 16 -> 0 <= c < 2 ^ 16 ->
  pack_IHH a b c = Ret (be_encode 4 a ++ be_encode 2 b ++ be_encode 2 c).
Proof.
  intros Ha Hb Hc. unfold pack_IHH. rewrite pack_I_ok, !pack_H_ok by assumption.
  reflexivity.
Qed.

Lemma pack_IHH_Raise a b c e : pack_IHH a b c = Raise e -> e = StructError.
Proof.
  unfold pack_IHH, pack_I, pack_H.
  destruct ((0 <=? a) && (a <? 2 ^ 32)); cbn; [|congruence].
  destruct ((0 <=? b) && (b <? 2 ^ 16)); cbn; [|congruence].
  destruct ((0 <=? c) && (c <? 2 ^ 16)); cbn; [discriminate | congruence].
Qed.

Lemma header_length a b c : length (be_encode 4 a ++ be_encode 2 b ++ be_encode 2 c) = 8%nat.
Proof. rewrite !length_app, !be_encode_length. reflexivity. Qed.

(** A write that went through: what was read, and the world it leaves. *)
Lemma publish_Ret shm o w w' :
  VideoSocketController.publish shm o w = (Ret tt, w') ->
  exists a1 a2 a3 (b : bytes),
    seen_last_frame_1 o = Some a1 /\ seen_last_frame_2 o = Some a2 /\
    seen_last_frame_3 o = Some a3 /\
    (0 <= seen_frame_n_2 o < 2 ^ 32 /\ 0 <= nd_rows a1 < 2 ^ 16 /\ 0 <= nd_cols a2 < 2 ^ 16) /\
    shm_segs w !! shm_seg shm = Some b /\
    (8 + length (tobytes a3) = length b)%nat /\
    w' = mkWorld (shm_names w)
           (<[shm_seg shm :=
                (be_encode 4 (seen_frame_n_2 o) ++ be_encode 2 (nd_rows a1)
                 ++ be_encode 2 (nd_cols a2)) ++ tobytes a3]> (shm_segs w)).
Proof.
  unfold VideoSocketController.publish.
  destruct (seen_last_frame_1 o) as [a1|]; cbn; [|discriminate].
  destruct (seen_last_frame_2 o) as [a2|]; cbn; [|discriminate].
  destruct (pack_IHH (seen_frame_n_2 o) (nd_rows a1) (nd_cols a2)) as [hd|] eqn:Ep;
    cbn; [|discriminate].
  destruct (seen_last_frame_3 o) as [a3|]; cbn; [|discriminate].
  unfold buf_assign.
  destruct (shm_segs w !! shm_seg shm) as [b|]; [|discriminate].
  destruct (Nat.eqb_spec (length (hd ++ tobytes a3)) (length b)) as [El|]; [|discriminate].
  intros [= <-]. apply pack_IHH_inv in Ep as [Hr ->].
  rewrite length_app, header_length in El.
  exists a1, a2, a3, b. repeat split; try reflexivity; try apply Hr. exact El.
Qed.

(** X6.  The frame the share loop has written is the frame a reader gets: with
    one frame [a] seen by all the reads of the round, a frame id other than
    zero, and a reader whose views have the sides of [a], the call returns
    the coordinate of [a], a view of its rows and columns, and that view
    shows exactly the bytes of [a]. *)
Theorem published_frame_is_read shm shm_r o w w' (a : ndarray) w0 self0 n0 c0 m :
  seen_last_frame_1 o = Some a ->
  seen_last_frame_2 o = Some a ->
  seen_last_frame_3 o = Some a ->
  seen_frame_n_2 o <> 0 ->
  length (tobytes a) = Z.to_nat (nbytes a) ->
  VideoSocketController.publish shm o w = (Ret tt, w') ->
  shm_seg shm_r = shm_seg shm ->
  VideoStream.read_header w0 shm_r = Ret (n0, c0) ->
  VideoStream.__init__ shm_r w0 = Ret self0 ->
  Coordinate.max_size c0 = Z.max (nd_cols a) (nd_rows a) ->
  Coordinate.min_size c0 = Z.min (nd_cols a) (nd_rows a) ->
  let v := mkView (shm_seg shm) 8 (nd_rows a) (nd_cols a) in
  VideoStream.get_frame (VideoStream.set_frame_id m self0) w'
  = (Ret (Coordinate.mk (nd_cols a) (nd_rows a), v),
     VideoStream.set_frame_id (seen_frame_n_2 o) self0)
  /\ view_bytes w' v = Some (tobytes a).
Proof.
  intros E1 E2 E3 Hn Hlen Hp Hseg Hh Hi Hmax Hmin v.
  apply publish_Ret in Hp as (a1 & a2 & a3 & b & F1 & F2 & F3 & (Rn & Rr & Rc) & Hb & Hl & ->).
  rewrite E1 in F1. rewrite E2 in F2. rewrite E3 in F3.
  injection F1 as <-. injection F2 as <-. injection F3 as <-.
  set (hd := be_encode 4 (seen_frame_n_2 o) ++ be_encode 2 (nd_rows a)
             ++ be_encode 2 (nd_cols a)) in *.
  destruct (init_inv _ _ _ Hi) as (b0 & n0' & h0 & wd0 & Hb0 & Hu0 & ->).
  assert (Ec : c0 = Coordinate.mk wd0 h0).
  { unfold VideoStream.read_header, buf in Hh. rewrite Hb0 in Hh. cbn in Hh.
    rewrite Hu0 in Hh. cbn in Hh. congruence. }
  subst c0. unfold Coordinate.max_size, Coordinate.min_size in Hmax, Hmin.
  cbn in Hmax, Hmin.
  split.
  - rewrite (get_frame_header _ _ (hd ++ tobytes a) (seen_frame_n_2 o)
               (nd_rows a) (nd_cols a)).
    + cbn. apply Z.eqb_neq in Hn. rewrite Hn. rewrite Hseg, Hmax, Hmin.
      subst v. destruct (Z.gtb_spec (nd_rows a) (nd_cols a)); repeat f_equal; lia.
    + cbn. rewrite Hseg. apply lookup_insert_eq.
    + subst hd. now apply unpack_IHH_encode.
  - unfold view_bytes. cbn. rewrite lookup_insert_eq. cbn. f_equal.
    assert (Hd : skipn 8 (hd ++ tobytes a) = tobytes a).
    { rewrite <- (header_length (seen_frame_n_2 o) (nd_rows a) (nd_cols a)).
      fold hd. rewrite skipn_app, skipn_all, Nat.sub_diag. reflexivity. }
    rewrite Hd. unfold nbytes in Hlen. rewrite <- Hlen. apply firstn_all.
Qed.

Lemma published_frame_is_read_witness :
  let a := Demo.plain 2 1 Byte.x2a in
  let o := Demo.fresh_frame 7 a in
  let w' := Demo.holding
    (be_encode 4 7 ++ be_encode 2 2 ++ be_encode 2 1 ++ replicate 6 Byte.x2a) in
  let self0 := VideoStream.mk Demo.shm0 (mkView 0 8 2 1) (mkView 0 8 1 2) (-1) in
  (seen_last_frame_1 o = Some a /\ seen_last_frame_2 o = Some a /\
   seen_last_frame_3 o = Some a /\ seen_frame_n_2 o <> 0 /\
   length (tobytes a) = Z.to_nat (nbytes a) /\
   VideoSocketController.publish Demo.shm0 o (Demo.holding Demo.upright) = (Ret tt, w') /\
   shm_seg Demo.shm0 = shm_seg Demo.shm0 /\
   VideoStream.read_header (Demo.holding Demo.upright) Demo.shm0
   = Ret (5, Coordinate.mk 1 2) /\
   VideoStream.__init__ Demo.shm0 (Demo.holding Demo.upright) = Ret self0 /\
   Coordinate.max_size (Coordinate.mk 1 2) = Z.max (nd_cols a) (nd_rows a) /\
   Coordinate.min_size (Coordinate.mk 1 2) = Z.min (nd_cols a) (nd_rows a)) /\
  VideoStream.get_frame (VideoStream.set_frame_id 5 self0) w'
  = (Ret (Coordinate.mk 1 2, mkView 0 8 2 1), VideoStream.set_frame_id 7 self0)
  /\ view_bytes w' (mkView 0 8 2 1) = Some (replicate 6 Byte.x2a).
Proof.
  intros a o w' self0.
  assert (H1 : seen_last_frame_1 o = Some a) by reflexivity.
  assert (H2 : seen_last_frame_2 o = Some a) by reflexivity.
  assert (H3 : seen_last_frame_3 o = Some a) by reflexivity.
  assert (H4 : seen_frame_n_2 o <> 0) by (simpl; lia).
  assert (H5 : length (tobytes a) = Z.to_nat (nbytes a)) by reflexivity.
  assert (H6 : VideoSocketController.publish Demo.shm0 o (Demo.holding Demo.upright)
               = (Ret tt, w')) by (vm_compute; reflexivity).
  assert (H7 : shm_seg Demo.shm0 = shm_seg Demo.shm0) by reflexivity.
  assert (H8 : VideoStream.read_header (Demo.holding Demo.upright) Demo.shm0
               = Ret (5, Coordinate.mk 1 2)) by reflexivity.
  assert (H9 : VideoStream.__init__ Demo.shm0 (Demo.holding Demo.upright) = Ret self0)
    by reflexivity.
  assert (H10 : Coordinate.max_size (Coordinate.mk 1 2) = Z.max (nd_cols a) (nd_rows a))
    by reflexivity.
  assert (H11 : Coordinate.min_size (Coordinate.mk 1 2) = Z.min (nd_cols a) (nd_rows a))
    by reflexivity.
  split; [repeat split; assumption|].
  exact (published_frame_is_read Demo.shm0 Demo.shm0 o _ w' a _ self0 5 _ 5
           H1 H2 H3 H4 H5 H6 H7 H8 H9 H10 H11).
Defined.

(** X7.  A frame whose bytes do not fill the segment exactly, as after a change
    of the size of the video: the write raises [ValueError] and nothing is
    written; the share loop ends there with that error, without the zero
    frame id and without the unlink of its teardown. *)
Theorem publish_wrong_size_raises shm o w (b : bytes) a1 a2 a3 :
  shm_segs w !! shm_seg shm = Some b ->
  seen_last_frame_1 o = Some a1 ->
  seen_last_frame_2 o = Some a2 ->
  seen_last_frame_3 o = Some a3 ->
  0 <= seen_frame_n_2 o < 2 ^ 32 ->
  0 <= nd_rows a1 < 2 ^ 16 ->
  0 <= nd_cols a2 < 2 ^ 16 ->
  (8 + length (tobytes a3))%nat <> length b ->
  VideoSocketController.publish shm o w = (Raise ValueError, w)
  /\ forall fuel script k n,
       script k = o ->
       seen_is_running o = true ->
       n <> seen_frame_n_1 o ->
       VideoSocketController.share_loop (S fuel) script k n shm w
       = Some (Raise ValueError, w).
Proof.
  intros Hb E1 E2 E3 Rn Rr Rc Hl.
  assert (Hp : VideoSocketController.publish shm o w = (Raise ValueError, w)).
  { unfold VideoSocketController.publish. rewrite E1, E2, E3. cbn.
    rewrite pack_IHH_ok by assumption. cbn.
    unfold buf_assign. rewrite Hb, length_app, header_length.
    destruct (Nat.eqb_spec (8 + length (tobytes a3)) (length b)); [contradiction|].
    reflexivity. }
  split; [exact Hp|].
  intros fuel script k n Hk Hrun Hn. cbn. rewrite Hk, Hrun.
  apply Z.eqb_neq in Hn. rewrite Hn. cbn. rewrite Hp. reflexivity.
Qed.

Lemma publish_wrong_size_raises_witness :
  let a := Demo.plain 2 2 Byte.x2a in
  let o := Demo.fresh_frame 7 a in
  let w := Demo.holding Demo.upright in
  (shm_segs w !! shm_seg Demo.shm0 = Some Demo.upright /\
   seen_last_frame_1 o = Some a /\ seen_last_frame_2 o = Some a /\
   seen_last_frame_3 o = Some a /\
   0 <= seen_frame_n_2 o < 2 ^ 32 /\ 0 <= nd_rows a < 2 ^ 16 /\ 0 <= nd_cols a < 2 ^ 16 /\
   (8 + length (tobytes a))%nat <> length Demo.upright) /\
  VideoSocketController.publish Demo.shm0 o w = (Raise ValueError, w)
  /\ forall fuel script k n,
       script k = o ->
       seen_is_running o = true ->
       n <> seen_frame_n_1 o ->
       VideoSocketController.share_loop (S fuel) script k n Demo.shm0 w
       = Some (Raise ValueError, w).
Proof.
  intros a o w.
  assert (H1 : shm_segs w !! shm_seg Demo.shm0 = Some Demo.upright) by reflexivity.
  assert (H2 : seen_last_frame_1 o = Some a) by reflexivity.
  assert (H3 : seen_last_frame_2 o = Some a) by reflexivity.
  assert (H4 : seen_last_frame_3 o = Some a) by reflexivity.
  assert (H5 : 0 <= seen_frame_n_2 o < 2 ^ 32) by (simpl; lia).
  assert (H6 : 0 <= nd_rows a < 2 ^ 16) by (simpl; lia).
  assert (H7 : 0 <= nd_cols a < 2 ^ 16) by (simpl; lia).
  assert (H8 : (8 + length (tobytes a))%nat <> length Demo.upright)
    by (vm_compute; lia).
  split; [tauto|].
  exact (publish_wrong_size_raises Demo.shm0 o w _ a a a H1 H2 H3 H4 H5 H6 H7 H8).
Defined.

(** X8.  A counter that no longer fits 32 bits, or a height or width that does
    not fit 16: the header cannot be packed, the write raises
    [struct.error] and the segment keeps what it held. *)
Theorem publish_out_of_range_raises shm o w a1 a2 :
  seen_last_frame_1 o = Some a1 ->
  seen_last_frame_2 o = Some a2 ->
  ~ (0 <= seen_frame_n_2 o < 2 ^ 32 /\ 0 <= nd_rows a1 < 2 ^ 16 /\ 0 <= nd_cols a2 < 2 ^ 16) ->
  VideoSocketController.publish shm o w = (Raise StructError, w).
Proof.
  intros E1 E2 Hr. unfold VideoSocketController.publish. rewrite E1, E2. cbn.
  destruct (pack_IHH (seen_frame_n_2 o) (nd_rows a1) (nd_cols a2)) as [hd|e] eqn:Ep.
  - apply pack_IHH_inv in Ep as [H _]. contradiction.
  - apply pack_IHH_Raise in Ep as ->. reflexivity.
Qed.

Lemma publish_out_of_range_raises_witness :
  let a := Demo.plain 2 1 Byte.x2a in
  let o := Demo.fresh_frame (2 ^ 32) a in
  (seen_last_frame_1 o = Some a /\ seen_last_frame_2 o = Some a /\
   ~ (0 <= seen_frame_n_2 o < 2 ^ 32 /\ 0 <= nd_rows a < 2 ^ 16 /\ 0 <= nd_cols a < 2 ^ 16)) /\
  VideoSocketController.publish Demo.shm0 o (Demo.holding Demo.upright)
  = (Raise StructError, Demo.holding Demo.upright).
Proof.
  intros a o.
  assert (H1 : seen_last_frame_1 o = Some a) by reflexivity.
  assert (H2 : seen_last_frame_2 o = Some a) by reflexivity.
  assert (H3 : ~ (0 <= seen_frame_n_2 o < 2 ^ 32 /\ 0 <= nd_rows a < 2 ^ 16
                  /\ 0 <= nd_cols a < 2 ^ 16)) by (simpl; lia).
  split; [tauto|].
  exact (publish_out_of_range_raises Demo.shm0 o _ a a H1 H2 H3).
Defined.

(** What the writes of the share thread may change. *)
Lemma only_touches_refl shm w : only_touches shm w w.
Proof. repeat split; reflexivity. Qed.

Lemma only_touches_trans shm w1 w2 w3 :
  only_touches shm w1 w2 -> only_touches shm w2 w3 -> only_touches shm w1 w3.
Proof.
  intros (A1 & B1 & C1) (A2 & B2 & C2). split_and!.
  - intros i. now rewrite A2, A1.
  - intros i Hi. now rewrite B2, B1.
  - intros nm Hnm. now rewrite C2, C1.
Qed.

Lemma buf_assign_only_touches shm data w r w' :
  buf_assign shm data w = (r, w') -> only_touches shm w w'.
Proof.
  intros H. split_and!.
  - intros i. eapply buf_assign_seg_len, H.
  - intros i Hi. unfold buf_assign in H.
    destruct (shm_segs w !! shm_seg shm) as [b|]; [|now injection H as _ <-].
    destruct (_ =? _)%nat; injection H as _ <-; [|reflexivity].
    cbn. now rewrite lookup_insert_ne.
  - intros nm _. unfold buf_assign in H.
    destruct (shm_segs w !! shm_seg shm) as [b|]; [|now injection H as _ <-].
    destruct (_ =? _)%nat; now injection H as _ <-.
Qed.

Lemma buf_assign_prefix_only_touches shm n data w r w' :
  buf_assign_prefix shm n data w = (r, w') -> only_touches shm w w'.
Proof.
  unfold buf_assign_prefix.
  destruct (shm_segs w !! shm_seg shm) as [b|] eqn:Eb;
    [|intros [= _ <-]; apply only_touches_refl].
  destruct (Nat.eqb_spec (length data) (length (firstn n b))) as [El|];
    [|intros [= _ <-]; apply only_touches_refl].
  intros [= _ <-]. split_and!; cbn.
  - intros i. unfold seg_len. cbn. destruct (decide (shm_seg shm = i)) as [<-|Hne].
    + rewrite lookup_insert_eq, Eb. cbn. f_equal.
      rewrite length_app, El, <- length_app, firstn_skipn. reflexivity.
    + now rewrite lookup_insert_ne.
  - intros i Hi. now rewrite lookup_insert_ne.
  - reflexivity.
Qed.

Lemma unlink_only_touches shm w r w' : unlink shm w = (r, w') -> only_touches shm w w'.
Proof.
  unfold unlink. destruct (shm_names w !! shm_name shm);
    [|intros [= _ <-]; apply only_touches_refl].
  intros [= _ <-]. split_and!; cbn; try reflexivity.
  intros nm Hnm. now rewrite lookup_delete_ne.
Qed.

Lemma publish_only_touches shm o w r w' :
  VideoSocketController.publish shm o w = (r, w') -> only_touches shm w w'.
Proof.
  unfold VideoSocketController.publish.
  destruct (_ ≫= _) as [data|e];
    [apply buf_assign_only_touches | intros [= _ <-]; apply only_touches_refl].
Qed.

Lemma teardown_only_touches shm w r w' :
  VideoSocketController.teardown shm w = (r, w') -> only_touches shm w w'.
Proof.
  unfold VideoSocketController.teardown.
  destruct (pack_I 0) as [zero|e]; [|intros [= _ <-]; apply only_touches_refl].
  destruct (buf_assign_prefix shm 4 zero w) as [[[]|e] w1] eqn:E1.
  - intros H. eapply only_touches_trans;
      [eapply buf_assign_prefix_only_touches, E1 | eapply unlink_only_touches, H].
  - intros [= _ <-]. eapply buf_assign_prefix_only_touches, E1.
Qed.

(** X9.  However the share loop ends, it has resized no segment, has written
    to no segment but its own, and has removed no name but its own. *)
Theorem share_loop_only_touches_its_segment fuel script shm : forall k n w r w',
  VideoSocketController.share_loop fuel script k n shm w = Some (r, w') ->
  only_touches shm w w'.
Proof.
  induction fuel as [|fuel IH]; intros k n w r w'; cbn; [discriminate|].
  destruct (seen_is_running (script k)).
  - destruct (negb _).
    + destruct (VideoSocketController.publish shm (script k) w) as [[[]|e] w1] eqn:Ep.
      * intros H. eapply only_touches_trans;
          [eapply publish_only_touches, Ep | eapply IH, H].
      * intros [= _ <-]. eapply publish_only_touches, Ep.
    + apply IH.
  - intros [= H]. eapply teardown_only_touches, H.
Qed.

Lemma share_loop_only_touches_its_segment_witness :
  let w' := mkWorld ∅ {[ 0%nat := Demo.closed_segment ]} in
  VideoSocketController.share_loop 2 Demo.frame_7_then_stop 0 0 Demo.shm0
    (Demo.holding Demo.upright) = Some (Ret tt, w') /\
  only_touches Demo.shm0 (Demo.holding Demo.upright) w'.
Proof.
  intros w'.
  assert (H : VideoSocketController.share_loop 2 Demo.frame_7_then_stop 0 0 Demo.shm0
                (Demo.holding Demo.upright) = Some (Ret tt, w'))
    by (vm_compute; reflexivity).
  split; [exact H|].
  exact (share_loop_only_touches_its_segment 2 Demo.frame_7_then_stop Demo.shm0
           0%nat 0 _ (Ret tt) w' H).
Defined.

(** X10.  While the counter it reads is the one it has published last, the share
    loop writes nothing: [d] such rounds with the flag set leave the world
    and the published counter as they were. *)
Theorem share_loop_idle d : forall fuel script k n shm w,
  (forall j, (j < d)%nat ->
     seen_is_running (script (k + j)%nat) = true /\
     seen_frame_n_1 (script (k + j)%nat) = n) ->
  VideoSocketController.share_loop (d + fuel) script k n shm w
  = VideoSocketController.share_loop fuel script (k + d) n shm w.
Proof.
  induction d as [|d IH]; intros fuel script k n shm w H.
  - now rewrite Nat.add_0_r.
  - destruct (H 0%nat ltac:(lia)) as [Hrun Hn]. rewrite Nat.add_0_r in Hrun, Hn.
    cbn. rewrite Hrun, Hn, Z.eqb_refl. cbn.
    rewrite IH.
    + f_equal. lia.
    + intros j Hj. replace (S k + j)%nat with (k + S j)%nat by lia. apply H. lia.
Qed.

Lemma share_loop_idle_witness :
  let script := fun k : nat =>
    if (k <? 3)%nat then Demo.fresh_frame 5 (Demo.plain 2 1 Byte.x2a) else Demo.stopped in
  (forall j, (j < 3)%nat ->
     seen_is_running (script (0 + j)%nat) = true /\
     seen_frame_n_1 (script (0 + j)%nat) = 5) /\
  VideoSocketController.share_loop (3 + 1) script 0 5 Demo.shm0 (Demo.holding Demo.upright)
  = VideoSocketController.share_loop 1 script (0 + 3) 5 Demo.shm0 (Demo.holding Demo.upright).
Proof.
  intros script.
  assert (H : forall j, (j < 3)%nat ->
            seen_is_running (script (0 + j)%nat) = true /\
            seen_frame_n_1 (script (0 + j)%nat) = 5).
  { intros j Hj. destruct j as [|[|[|j]]]; [split; reflexivity .. | lia]. }
  split; [exact H|].
  exact (share_loop_idle 3 1 script 0%nat 5 Demo.shm0 (Demo.holding Demo.upright) H).
Defined.

Lemma teardown_Ret_world shm w w' :
  VideoSocketController.teardown shm w = (Ret tt, w') ->
  exists b : bytes,
    shm_segs w !! shm_seg shm = Some b /\ (4 <= length b)%nat /\
    w' = mkWorld (delete (shm_name shm) (shm_names w))
           (<[shm_seg shm := be_encode 4 0 ++ skipn 4 b]> (shm_segs w)).
Proof.
  unfold VideoSocketController.teardown. rewrite pack_I_ok by lia.
  unfold buf_assign_prefix.
  destruct (shm_segs w !! shm_seg shm) as [b|]; [|discriminate].
  rewrite be_encode_length, length_firstn.
  destruct (Nat.eqb_spec 4 (Nat.min 4 (length b))) as [El|]; [|discriminate].
  unfold unlink. cbn.
  destruct (shm_names w !! shm_name shm); [|discriminate].
  intros [= <-]. exists b. repeat split. lia.
Qed.

(** X11.  A second teardown under the same name, as by the other of two
    sessions that share a segment: the zero frame id is written again, the
    unlink raises [FileNotFoundError], and the world is as the first
    teardown left it. *)
Theorem second_teardown_raises shm w w' :
  VideoSocketController.teardown shm w = (Ret tt, w') ->
  VideoSocketController.teardown shm w' = (Raise FileNotFoundError, w').
Proof.
  intros H. apply teardown_Ret_world in H as (b & Hb & Hl & ->).
  unfold VideoSocketController.teardown. rewrite pack_I_ok by lia.
  unfold buf_assign_prefix. cbn. rewrite lookup_insert_eq.
  assert (L : length (firstn 4 (be_encode 4 0 ++ skipn 4 b)) = 4%nat).
  { rewrite length_firstn, length_app, be_encode_length. lia. }
  rewrite L, be_encode_length. cbn [Nat.eqb].
  unfold unlink. cbn. rewrite lookup_delete_eq, insert_insert_eq.
  replace (skipn 4 (be_encode 4 0 ++ skipn 4 b)) with (skipn 4 b); [reflexivity|].
  symmetry. exact (drop_app_length (be_encode 4 0) (skipn 4 b)).
Qed.

Lemma second_teardown_raises_witness :
  let w' := mkWorld ∅ {[ 0%nat := be_encode 4 0 ++ skipn 4 Demo.upright ]} in
  VideoSocketController.teardown Demo.shm0 (Demo.holding Demo.upright) = (Ret tt, w') /\
  VideoSocketController.teardown Demo.shm0 w' = (Raise FileNotFoundError, w').
Proof.
  intros w'.
  assert (H : VideoSocketController.teardown Demo.shm0 (Demo.holding Demo.upright)
              = (Ret tt, w')) by (vm_compute; reflexivity).
  split; [exact H|].
  exact (second_teardown_raises Demo.shm0 _ w' H).
Defined.



(** ** More on the controller *)

Section Latest.

Context {ctx packet frame : Type} `{Codec : CodecContext ctx packet frame}.

Import VideoSocketController.

Implicit Types (self : @t ctx) (fs : list frame) (ps : list packet).

Lemma for_frames_last fs : forall self,
  last_frame (snd (for_frames fs self))
  = match last (converted fs) with Some a => Some a | None => last_frame self end.
Proof.
  induction fs as [|f fs IH]; intros self; cbn; [reflexivity|].
  destruct (to_ndarray f) as [a|e]; cbn; [|reflexivity].
  rewrite IH, last_cons. cbn. destruct (last (converted fs)); reflexivity.
Qed.

Lemma for_packets_last ps : forall self,
  last_frame (snd (for_packets ps self))
  = match last (decoded_of_packets (code_context self) ps) with
    | Some a => Some a
    | None => last_frame self
    end.
Proof.
  induction ps as [|p ps IH]; intros self; cbn; [reflexivity|].
  destruct (decode (code_context self) p) as [[fs|e] x]; cbn; [|reflexivity].
  pose proof (for_frames_last fs (set_code_context x self)) as HL.
  destruct (for_frames_count fs (set_code_context x self)) as (_ & H2 & H3).
  destruct (for_frames fs (set_code_context x self)) as [[[]|e] s]; cbn in *.
  - rewrite <- H2, IH, H3, HL, last_app.
    destruct (last (decoded_of_packets x ps)); reflexivity.
  - rewrite <- H2, HL, last_app. reflexivity.
Qed.

Lemma loop_round_last self :
  last_frame (loop_round self)
  = match last (decoded_in_round self) with
    | Some a => Some a
    | None => last_frame self
    end.
Proof.
  unfold loop_round, try_body, decoded_in_round.
  destruct (recv (buffer_size self) (_conn self)) as [[data|e] c]; cbn; [|reflexivity].
  destruct (parse (code_context self) data) as [[packets|e] x]; cbn; [|reflexivity].
  rewrite for_packets_last. reflexivity.
Qed.

Lemma rounds_last k : forall self,
  last_frame (rounds k self)
  = match last (decoded_in_rounds k self) with
    | Some a => Some a
    | None => last_frame self
    end.
Proof.
  induction k as [|k IH]; intros self; cbn; [reflexivity|].
  rewrite IH, loop_round_last, last_app.
  destruct (last (decoded_in_rounds k (loop_round self))); reflexivity.
Qed.

(** X13.  [get_frame] gives the latest frame: after any number of rounds of the
    decode loop it is the last frame decoded in them, in decode order, and
    the frame held before when they have decoded none. *)
Theorem get_frame_is_latest k self :
  get_frame (rounds k self)
  = match last (decoded_in_rounds k self) with
    | Some a => Some a
    | None => get_frame self
    end.
Proof. unfold get_frame. apply rounds_last. Qed.

(** X14.  The [coordinate] of a session: [AttributeError] as long as no frame
    has been decoded, for there is no [last_frame] to take a shape of, and
    from then on the width and height of the latest frame. *)
Theorem coordinate_of_latest
    (max_size : option Z) (fps buffer_size : Z) (camera : option VideoCamera.t)
    (conn : socket) (k : nat) :
  let new := __init__ max_size fps buffer_size camera conn in
  coordinate (rounds k new)
  = match last (decoded_in_rounds k new) with
    | Some a => Ret (Coordinate.mk (nd_cols a) (nd_rows a))
    | None => Raise AttributeError
    end.
Proof.
  intros new. unfold coordinate. rewrite rounds_last.
  destruct (last (decoded_in_rounds k new)); reflexivity.
Qed.

(** X15.  The decode loop writes the counter, the frame, the codec context and
    the socket, and nothing else: the arguments of the session, its buffer
    size and its shared segment are after any number of rounds what they
    were. *)
Theorem rounds_keep_configuration k self :
  to_args (rounds k self) = to_args self
  /\ buffer_size (rounds k self) = buffer_size self
  /\ video_codec (rounds k self) = video_codec self
  /\ video_source (rounds k self) = video_source self
  /\ video_shm (rounds k self) = video_shm self.
Proof.
  assert (H : max_size (rounds k self) = max_size self
              /\ fps (rounds k self) = fps self
              /\ buffer_size (rounds k self) = buffer_size self
              /\ video_codec (rounds k self) = video_codec self
              /\ video_source (rounds k self) = video_source self
              /\ camera (rounds k self) = camera self
              /\ video_shm (rounds k self) = video_shm self).
  { apply (rounds_preserves
             (fun s => max_size s = max_size self /\ fps s = fps self
                       /\ buffer_size s = buffer_size self
                       /\ video_codec s = video_codec self
                       /\ video_source s = video_source self
                       /\ camera s = camera self
                       /\ video_shm s = video_shm self)); auto.
    repeat split. }
  destruct H as (H1 & H2 & H3 & H4 & H5 & H6 & H7).
  split_and!; try assumption.
  unfold to_args. now rewrite H1, H2, H4, H5, H6.
Qed.

End Latest.

(** Three reads, one of them failing in its last packet: the latest frame
    is the last one that decoded, and the coordinate is its shape. *)
Example demo_latest :
  let self := VideoSocketController.rounds 3
    (Demo.display [Data [Byte.x01; Byte.x02]; Data [Byte.x07; Byte.xff]; Fail]) in
  VideoSocketController.get_frame self = Some (Demo.pixel Byte.x07)
  /\ VideoSocketController.coordinate self = Ret (Coordinate.mk 1 1)
  /\ VideoSocketController.coordinate (Demo.display [Fail]) = Raise AttributeError.
Proof. vm_compute. repeat split. Qed.

Section MoreHandshake.

Context {ctx packet frame : Type} `{Codec : CodecContext ctx packet frame}.

Import VideoSocketController.

Implicit Types (self : @t ctx).

(** X16.  The codec is the expected one but the eight bytes of the size do not
    come in one read of exactly eight bytes: the thread raises
    [struct.error] before its loop, whatever the rest of the stream. *)
Theorem handshake_short_size_read fuel is_running self data1 c1 data2 c2 :
  recv 4 (_conn self) = (Ret data1, c1) ->
  bytes_decode data1 = Ret (video_codec self) ->
  video_codec self <> ""%string ->
  recv 8 c1 = (Ret data2, c2) ->
  length data2 <> 8%nat ->
  _main_thread fuel is_running self
  = Some (Raise StructError, set_conn c2 (set_conn c1 self)).
Proof.
  intros Hr1 Hd Hne Hr2 Hl. unfold _main_thread. rewrite Hr1, Hd. cbn.
  apply String.eqb_neq in Hne. rewrite Hne, String.eqb_refl. cbn.
  rewrite Hr2. cbn. unfold unpack_II.
  destruct (Nat.eqb_spec (length data2) 8); [contradiction | reflexivity].
Qed.

(** X17.  Received bytes that are not UTF-8 have no name to compare: the thread
    raises [UnicodeDecodeError], in either source mode. *)
Theorem handshake_undecodable_name fuel is_running self data c :
  recv 4 (_conn self) = (Ret data, c) ->
  utf8_valid data = false ->
  _main_thread fuel is_running self = Some (Raise UnicodeDecodeError, set_conn c self).
Proof.
  intros Hr Hv. unfold _main_thread, bytes_decode. rewrite Hr, Hv. reflexivity.
Qed.

(** X18.  A camera session that receives no byte for the name raises the error
    with the hints, before the name is compared with the codec. *)
Theorem empty_name_on_camera_raises_hints fuel is_running self c :
  video_source self = SOURCE_CAMERA ->
  recv 4 (_conn self) = (Ret [], c) ->
  _main_thread fuel is_running self = Some (Raise NegotiationFailed, set_conn c self).
Proof.
  intros Hs Hr. unfold _main_thread. rewrite Hr. cbn. rewrite Hs. reflexivity.
Qed.

(** X19.  A whole run of the thread: the handshake goes through and the flag is
    found cleared at the test [k].  The thread returns after [k] rounds on
    the stream that follows the handshake, with the socket closed and the
    counter grown by the number of frames those rounds have decoded. *)
Theorem main_thread_run fuel is_running self data1 c1 data2 c2 k :
  recv 4 (_conn self) = (Ret data1, c1) ->
  bytes_decode data1 = Ret (video_codec self) ->
  video_codec self <> ""%string ->
  recv 8 c1 = (Ret data2, c2) ->
  length data2 = 8%nat ->
  first_cleared is_running 0 fuel = Some k ->
  let streaming := set_conn c2 (set_conn c1 self) in
  exists self',
    _main_thread fuel is_running self = Some (Ret tt, self')
    /\ self' = set_conn (sock_close (_conn (rounds k streaming))) (rounds k streaming)
    /\ sock_closed (_conn self') = true
    /\ frame_n self' = frame_n self + Z.of_nat (length (decoded_in_rounds k streaming))
    /\ get_frame self'
       = match last (decoded_in_rounds k streaming) with
         | Some a => Some a
         | None => get_frame self
         end.
Proof.
  intros Hr1 Hd Hne Hr2 Hl Hk streaming.
  exists (set_conn (sock_close (_conn (rounds k streaming))) (rounds k streaming)).
  split_and!; try reflexivity.
  - rewrite (main_thread_streaming fuel is_running self data1 c1 data2 c2) by assumption.
    rewrite while_is_running_rounds, Hk, Nat.sub_0_r. reflexivity.
  - cbn. rewrite rounds_count. reflexivity.
  - unfold get_frame. cbn. rewrite rounds_last. reflexivity.
Qed.

End MoreHandshake.

Lemma handshake_short_size_read_witness :
  let self := Demo.display [Data Demo.h264; Data (firstn 5 Demo.size_1080_1920);
                            Data (skipn 5 Demo.size_1080_1920)] in
  let c1 := mkSocket [Data (firstn 5 Demo.size_1080_1920);
                      Data (skipn 5 Demo.size_1080_1920)] false in
  let c2 := mkSocket [Data (skipn 5 Demo.size_1080_1920)] false in
  (recv 4 (VideoSocketController._conn self) = (Ret Demo.h264, c1) /\
   bytes_decode Demo.h264 = Ret (VideoSocketController.video_codec self) /\
   VideoSocketController.video_codec self <> ""%string /\
   recv 8 c1 = (Ret (firstn 5 Demo.size_1080_1920), c2) /\
   length (firstn 5 Demo.size_1080_1920) <> 8%nat) /\
  VideoSocketController._main_thread 9 Demo.never_closed self
  = Some (Raise StructError,
          VideoSocketController.set_conn c2 (VideoSocketController.set_conn c1 self)).
Proof.
  intros self c1 c2.
  assert (H1 : recv 4 (VideoSocketController._conn self) = (Ret Demo.h264, c1))
    by reflexivity.
  assert (H2 : bytes_decode Demo.h264 = Ret (VideoSocketController.video_codec self))
    by reflexivity.
  assert (H3 : VideoSocketController.video_codec self <> ""%string)
    by (simpl; discriminate).
  assert (H4 : recv 8 c1 = (Ret (firstn 5 Demo.size_1080_1920), c2)) by reflexivity.
  assert (H5 : length (firstn 5 Demo.size_1080_1920) <> 8%nat) by (vm_compute; lia).
  split; [repeat split; assumption|].
  exact (handshake_short_size_read 9 Demo.never_closed self _ c1 _ c2 H1 H2 H3 H4 H5).
Defined.

Lemma handshake_undecodable_name_witness :
  let data := [Byte.xff; Byte.xfe; Byte.x00; Byte.x00] in
  let self := Demo.display [Data data] in
  (recv 4 (VideoSocketController._conn self) = (Ret data, mkSocket [] false) /\
   utf8_valid data = false) /\
  VideoSocketController._main_thread 9 Demo.never_closed self
  = Some (Raise UnicodeDecodeError,
          VideoSocketController.set_conn (mkSocket [] false) self).
Proof.
  intros data self.
  assert (H1 : recv 4 (VideoSocketController._conn self) = (Ret data, mkSocket [] false))
    by reflexivity.
  assert (H2 : utf8_valid data = false) by reflexivity.
  split; [split; assumption|].
  exact (handshake_undecodable_name 9 Demo.never_closed self data _ H1 H2).
Defined.

Lemma empty_name_on_camera_raises_hints_witness :
  let self := Demo.with_camera [] in
  (VideoSocketController.video_source self = VideoSocketController.SOURCE_CAMERA /\
   recv 4 (VideoSocketController._conn self) = (Ret [], mkSocket [] false)) /\
  VideoSocketController._main_thread 9 Demo.never_closed self
  = Some (Raise VideoSocketController.NegotiationFailed,
          VideoSocketController.set_conn (mkSocket [] false) self).
Proof.
  intros self.
  assert (H1 : VideoSocketController.video_source self
               = VideoSocketController.SOURCE_CAMERA) by reflexivity.
  assert (H2 : recv 4 (VideoSocketController._conn self) = (Ret [], mkSocket [] false))
    by reflexivity.
  split; [split; assumption|].
  exact (empty_name_on_camera_raises_hints 9 Demo.never_closed self _ H1 H2).
Defined.

Lemma main_thread_run_witness :
  let self := Demo.display [Data Demo.h264; Data Demo.size_1080_1920;
                            Data [Byte.x01; Byte.x02]] in
  let c1 := mkSocket [Data Demo.size_1080_1920; Data [Byte.x01; Byte.x02]] false in
  let c2 := mkSocket [Data [Byte.x01; Byte.x02]] false in
  let streaming := VideoSocketController.set_conn c2 (VideoSocketController.set_conn c1 self) in
  (recv 4 (VideoSocketController._conn self) = (Ret Demo.h264, c1) /\
   bytes_decode Demo.h264 = Ret (VideoSocketController.video_codec self) /\
   VideoSocketController.video_codec self <> ""%string /\
   recv 8 c1 = (Ret Demo.size_1080_1920, c2) /\
   length Demo.size_1080_1920 = 8%nat /\
   VideoSocketController.first_cleared (Demo.closed_after 2) 0 3 = Some 2%nat) /\
  exists self',
    VideoSocketController._main_thread 3 (Demo.closed_after 2) self = Some (Ret tt, self')
    /\ self' = VideoSocketController.set_conn
                 (sock_close (VideoSocketController._conn
                                (VideoSocketController.rounds 2 streaming)))
                 (VideoSocketController.rounds 2 streaming)
    /\ sock_closed (VideoSocketController._conn self') = true
    /\ VideoSocketController.frame_n self'
       = VideoSocketController.frame_n self
         + Z.of_nat (length (VideoSocketController.decoded_in_rounds 2 streaming))
    /\ VideoSocketController.get_frame self'
       = match last (VideoSocketController.decoded_in_rounds 2 streaming) with
         | Some a => Some a
         | None => VideoSocketController.get_frame self
         end.
Proof.
  intros self c1 c2 streaming.
  assert (H1 : recv 4 (VideoSocketController._conn self) = (Ret Demo.h264, c1))
    by reflexivity.
  assert (H2 : bytes_decode Demo.h264 = Ret (VideoSocketController.video_codec self))
    by reflexivity.
  assert (H3 : VideoSocketController.video_codec self <> ""%string)
    by (simpl; discriminate).
  assert (H4 : recv 8 c1 = (Ret Demo.size_1080_1920, c2)) by reflexivity.
  assert (H5 : length Demo.size_1080_1920 = 8%nat) by reflexivity.
  assert (H6 : VideoSocketController.first_cleared (Demo.closed_after 2) 0 3 = Some 2%nat)
    by reflexivity.
  split; [repeat split; assumption|].
  exact (main_thread_run 3 (Demo.closed_after 2) self _ c1 _ c2 2%nat H1 H2 H3 H4 H5 H6).
Defined.

(** The run above: three frames from the one read, then an idle round. *)
Example demo_main_thread :
  option_map (fun r => (VideoSocketController.frame_n (snd r),
                        VideoSocketController.get_frame (snd r),
                        VideoSocketController._conn (snd r)))
    (VideoSocketController._main_thread 3 (Demo.closed_after 2)
       (Demo.display [Data Demo.h264; Data Demo.size_1080_1920;
                      Data [Byte.x01; Byte.x02]]))
  = Some (3, Some (Demo.pixel Byte.x02), mkSocket [] true).
Proof. vm_compute. reflexivity. Qed.

(** ** More on the arguments *)

Lemma prefix_append (p s : string) : String.prefix p (p +:+ s) = true.
Proof.
  induction p as [|a p IH].
  - destruct s; reflexivity.
  - change (String.prefix (String a p) (String a (p +:+ s)) = true).
    cbn [String.prefix].
    destruct (ascii_dec a a) as [_|Hne]; [exact IH | contradiction].
Qed.

(** X20.  Which keys the camera emits: [camera_id] always and first;
    [camera_size] exactly when the size is a string other than [''];
    [camera_ar] exactly when the size is not and the aspect ratio is;
    [camera_fps] exactly when the rate is above zero; so one to three
    tokens. *)
Theorem camera_args_keys (self : VideoCamera.t) :
  let args := VideoCamera.to_args self in
  head args = Some ("camera_id=" +:+ str_of_int (VideoCamera.camera_id self))
  /\ VideoCamera.has_key "camera_size=" args = truthy (VideoCamera.camera_size self)
  /\ VideoCamera.has_key "camera_ar=" args
     = negb (truthy (VideoCamera.camera_size self)) && truthy (VideoCamera.camera_ar self)
  /\ VideoCamera.has_key "camera_fps=" args = (VideoCamera.camera_fps self >? 0)
  /\ (1 <= length args <= 3)%nat.
Proof.
  unfold VideoCamera.to_args, VideoCamera.has_key.
  destruct (truthy (VideoCamera.camera_size self)),
           (truthy (VideoCamera.camera_ar self)),
           (VideoCamera.camera_fps self >? 0);
    cbn -[String.prefix String.append];
    rewrite ?(prefix_append "camera_size="), ?(prefix_append "camera_ar="),
            ?(prefix_append "camera_fps=");
    repeat split; try reflexivity; lia.
Qed.

(** X21.  Without a size, the aspect ratio that is set is the one emitted, as
    [camera_ar=<ar>]. *)
Theorem camera_ar_is_the_fallback (self : VideoCamera.t) (ar : string) :
  truthy (VideoCamera.camera_size self) = false ->
  VideoCamera.camera_ar self = Some ar ->
  ar <> ""%string ->
  In ("camera_ar=" +:+ ar) (VideoCamera.to_args self)
  /\ VideoCamera.has_key "camera_size=" (VideoCamera.to_args self) = false.
Proof.
  intros Hs Ha Hne. unfold VideoCamera.to_args.
  rewrite Hs, Ha, (truthy_Some ar Hne).
  destruct (VideoCamera.camera_fps self >? 0); cbn; auto.
Qed.

Lemma camera_ar_is_the_fallback_witness :
  let self := VideoCamera.mk 1 (Some "4:3") None 30 in
  (truthy (VideoCamera.camera_size self) = false /\
   VideoCamera.camera_ar self = Some "4:3"%string /\
   "4:3"%string <> ""%string) /\
  In "camera_ar=4:3"%string (VideoCamera.to_args self)
  /\ VideoCamera.has_key "camera_size=" (VideoCamera.to_args self) = false.
Proof.
  intros self.
  assert (H1 : truthy (VideoCamera.camera_size self) = false) by reflexivity.
  assert (H2 : VideoCamera.camera_ar self = Some "4:3"%string) by reflexivity.
  assert (H3 : "4:3"%string <> ""%string) by discriminate.
  split; [repeat split; assumption|].
  exact (camera_ar_is_the_fallback self "4:3" H1 H2 H3).
Defined.

Section SessionArgs.

Context {ctx packet frame : Type} `{Codec : CodecContext ctx packet frame}.

Import VideoSocketController.

(** X22.  The arguments of a new session: the five video tokens in their order,
    with the codec [h264] and the source that goes with the camera given or
    not, then the tokens of the camera if there is one; so the list holds a
    [camera_id] exactly when the source is the camera. *)
Theorem session_args
    (max_size : option Z) (fps buffer_size : Z) (camera : option VideoCamera.t)
    (conn : socket) :
  let new := __init__ max_size fps buffer_size camera conn in
  to_args new
  = ["video=true";
     "max_size=" +:+ fmt max_size;
     "max_fps=" +:+ str_of_int fps;
     "video_codec=h264";
     "video_source=" +:+ match camera with Some _ => "camera" | None => "display" end]%string
    ++ from_option VideoCamera.to_args [] camera
  /\ VideoCamera.has_key "camera_id=" (to_args new)
     = String.eqb (video_source new) SOURCE_CAMERA.
Proof.
  intros new. split.
  - unfold new, to_args, __init__. cbn. destruct camera; reflexivity.
  - unfold new, to_args, __init__, VideoCamera.has_key. cbn.
    destruct camera as [cam|]; [|reflexivity].
    unfold VideoCamera.to_args.
    destruct (truthy (VideoCamera.camera_size cam)),
             (truthy (VideoCamera.camera_ar cam)),
             (VideoCamera.camera_fps cam >? 0);
      cbn -[String.prefix String.append];
      rewrite ?(prefix_append "camera_id="); reflexivity.
Qed.

End SessionArgs.

Example demo_session_args :
  VideoSocketController.to_args
    (VideoSocketController.__init__ (Some 1200) 60 131072
       (Some (VideoCamera.mk 1 (Some "4:3") None 30)) (mkSocket [] false))
  = ["video=true"; "max_size=1200"; "max_fps=60"; "video_codec=h264";
     "video_source=camera"; "camera_id=1"; "camera_ar=4:3"; "camera_fps=30"]%string.
Proof. reflexivity. Qed.

(** ** More on the creation of the segment *)

Section MoreSharedFrame.

Context {ctx : Type}.

Import VideoSocketController.

Implicit Types (self : @t ctx).

(** X23.  [create_shared_frame] raises only for a size that is not positive, a
    [ValueError] that leaves everything as it was.  Otherwise it returns
    with [video_shm] under the name asked for, and the name leads to the
    segment of [video_shm]: a new one of [size] zero bytes when the name was
    free, the one that had the name when it was taken. *)
Theorem create_shared_frame_outcome f_name size self w :
  match create_shared_frame f_name size self w with
  | (Ret _, self', w') =>
    0 < size /\
    exists shm,
      video_shm self' = Some shm
      /\ shm_name shm = f_name
      /\ shm_names w' !! f_name = Some (shm_seg shm)
      /\ match shm_names w !! f_name with
         | Some i => shm_seg shm = i /\ w' = w
         | None => shm_segs w' !! shm_seg shm
                   = Some (replicate (Z.to_nat size) Byte.x00)
         end
  | (Raise e, self', w') => size <= 0 /\ e = ValueError /\ self' = self /\ w' = w
  end.
Proof.
  destruct (Z.leb_spec size 0) as [Hs|Hs].
  - unfold create_shared_frame, SharedMemory_create.
    destruct (Z.leb_spec size 0); [|lia]. repeat split. exact Hs.
  - destruct (shm_names w !! f_name) as [i|] eqn:Hn.
    + rewrite (create_shared_frame_taken f_name size self w i Hs Hn).
      split; [exact Hs|]. exists (mkShm f_name i). cbn. repeat split. exact Hn.
    + rewrite (create_shared_frame_fresh f_name size self w Hs Hn).
      split; [exact Hs|]. eexists. cbn.
      split_and!; try reflexivity; cbn; apply lookup_insert_eq.
Qed.

End MoreSharedFrame.

Lemma two_sessions_one_name_witness :
  (0 < 14 /\ 0 < 14 /\ shm_names Demo.no_world !! Demo.name = None) /\
  exists shm w1,
    VideoSocketController.create_shared_frame Demo.name 14 (Demo.display []) Demo.no_world
    = (Ret tt, VideoSocketController.set_video_shm (Some shm) (Demo.display []), w1)
    /\ VideoSocketController.create_shared_frame Demo.name 14 (Demo.with_camera []) w1
       = (Ret tt, VideoSocketController.set_video_shm (Some shm) (Demo.with_camera []), w1).
Proof.
  assert (H1 : 0 < 14) by lia.
  assert (H2 : shm_names Demo.no_world !! Demo.name = None) by reflexivity.
  split; [repeat split; assumption|].
  exact (two_sessions_one_name Demo.name 14 14 (Demo.display []) (Demo.with_camera [])
           Demo.no_world H1 H1 H2).
Defined.

(** The loop itself on the small codec: the flag is found cleared at the
    third test, two rounds have run, and the counter is at the four frames
    they decoded; the third chunk has not been read. *)
Example demo_while_is_running :
  option_map (fun self => (VideoSocketController.frame_n self,
                           VideoSocketController.last_frame self,
                           VideoSocketController._conn self))
    (VideoSocketController.while_is_running 5 (Demo.closed_after 2) 0
       (Demo.display [Data [Byte.x01; Byte.x02]; Data [Byte.x03]; Data [Byte.x04]]))
  = Some (4, Some (Demo.pixel Byte.x03), mkSocket [Data [Byte.x04]] false)
  /\ VideoSocketController.while_is_running 2 (Demo.closed_after 2) 0
       (Demo.display [Data [Byte.x01; Byte.x02]; Data [Byte.x03]; Data [Byte.x04]])
     = None.
Proof. vm_compute. split; reflexivity. Qed.
